(** * The belongs-to association of lib/associations/belongs-to.js

    A shallow embedding of the [BelongsTo] class: the constructor (key
    descriptor resolution), [injectAttributes], and the three traversal
    operations [get], [set] and [create], followed by the properties of the
    specification that concern them.

    JavaScript values are a first-order inductive type, objects are
    association lists in insertion order, the model registry is a finite map
    from model names to models, synchronous code runs in a state and error
    monad over that registry, and the asynchronous traversal operations are
    programs over the calls they issue to the query and persistence
    interfaces. *)

From Stdlib Require Import ZArith String Ascii List Lia Bool.
From stdpp Require Import base option strings gmap pretty.
Import ListNotations.
Local Open Scope Z_scope.
Local Open Scope string_scope.
Set Warnings "-register-all".

(* ===================================================================== *)
(** ** JavaScript values *)
(* ===================================================================== *)

(** The constructor an object was built by: a model of the registry
    (named), the transaction class of lib/transaction, or the runtime
    itself, for its built-in functions and objects. *)
Inductive class : Type :=
| ModelClass (name : string)
| TransactionClass
| BuiltinClass.

Inductive value : Type :=
| VUndefined
| VNull
| VBool (b : bool)
| VNum (n : Z)
| VStr (s : string)
| VObj (props : list (string * value))
| VArr (elems : list value)
| VInst (c : class) (data : list (string * value)).

(** A plain object: its own enumerable properties, in insertion order. *)
Definition obj : Type := list (string * value).

Definition class_eqb (c d : class) : bool :=
  match c, d with
  | ModelClass m, ModelClass n => String.eqb m n
  | TransactionClass, TransactionClass => true
  | _, _ => false
  end.

(** [!!v] *)
Definition truthy (v : value) : bool :=
  match v with
  | VUndefined | VNull => false
  | VBool b => b
  | VNum n => negb (Z.eqb n 0)
  | VStr s => negb (String.eqb s EmptyString)
  | VObj _ | VArr _ | VInst _ _ => true
  end.

(** [a || b] *)
Definition js_or (a b : value) : value := if truthy a then a else b.

Definition is_undefined (v : value) : bool :=
  match v with VUndefined => true | _ => false end.

(** [v == null] *)
Definition is_nullish (v : value) : bool :=
  match v with VUndefined | VNull => true | _ => false end.

(** [Array.isArray] *)
Definition isArray (v : value) : bool :=
  match v with VArr _ => true | _ => false end.

(** [_.isObject]: the language type Object (objects, arrays, instances). *)
Definition isObject (v : value) : bool :=
  match v with VObj _ | VArr _ | VInst _ _ => true | _ => false end.

(** [a === b].  Primitives compare by value; two objects are strictly equal
    only when they are the same reference, which a first-order value cannot
    express, so distinct object literals are taken to be different. *)
Definition strict_eq (a b : value) : bool :=
  match a, b with
  | VUndefined, VUndefined => true
  | VNull, VNull => true
  | VBool x, VBool y => Bool.eqb x y
  | VNum x, VNum y => Z.eqb x y
  | VStr x, VStr y => String.eqb x y
  | _, _ => false
  end.

(** [String(v)], the conversion applied to computed property keys and by
    [Array.prototype.join]. *)
Fixpoint to_string (v : value) : string :=
  match v with
  | VUndefined => "undefined"
  | VNull => "null"
  | VBool true => "true"
  | VBool false => "false"
  | VNum n => pretty n
  | VStr s => s
  | VObj _ => "[object Object]"
  | VInst _ _ => "[object Object]"
  | VArr l =>
      (fix join_elems (l : list value) : string :=
         match l with
         | [] => EmptyString
         | [x] => match x with VUndefined | VNull => EmptyString | _ => to_string x end
         | x :: r =>
             match x with VUndefined | VNull => EmptyString | _ => to_string x end
             +:+ "," +:+ join_elems r
         end) l
  end.

(** [arr.join(sep)] *)
Fixpoint join (sep : string) (l : list value) : string :=
  match l with
  | [] => EmptyString
  | [x] => match x with VUndefined | VNull => EmptyString | _ => to_string x end
  | x :: r =>
      match x with VUndefined | VNull => EmptyString | _ => to_string x end
      +:+ sep +:+ join sep r
  end.

(** ** Objects *)

(** [o[k]] for an own property, [undefined] when there is none. *)
Fixpoint get_prop (k : string) (o : obj) : value :=
  match o with
  | [] => VUndefined
  | (k', v) :: r => if String.eqb k k' then v else get_prop k r
  end.

(** [o.hasOwnProperty(k)] *)
Fixpoint has_prop (k : string) (o : obj) : bool :=
  match o with
  | [] => false
  | (k', _) :: r => if String.eqb k k' then true else has_prop k r
  end.

(** [o[k] = v]: an existing property is overwritten in place, a new one is
    appended. *)
Fixpoint set_prop (k : string) (v : value) (o : obj) : obj :=
  match o with
  | [] => [(k, v)]
  | (k', v') :: r =>
      if String.eqb k k' then (k, v) :: r else (k', v') :: set_prop k v r
  end.

(** The names that every plain object inherits from [Object.prototype]. *)
Definition Object_prototype : list string :=
  ["constructor"; "__defineGetter__"; "__defineSetter__"; "hasOwnProperty";
   "__lookupGetter__"; "__lookupSetter__"; "isPrototypeOf";
   "propertyIsEnumerable"; "toString"; "valueOf"; "__proto__";
   "toLocaleString"].

Definition inherited (k : string) : bool :=
  existsb (String.eqb k) Object_prototype.

(** A member of [Object.prototype]: a built-in function (or, under
    [__proto__], the prototype object itself).  It is truthy and has no
    enumerable property of its own. *)
Definition builtin : value := VInst BuiltinClass [].

(** [o[k]] as a property read with a key that the caller chose: an own
    property if there is one, and otherwise what the prototype chain of a
    plain object gives. *)
Definition read_prop (k : string) (o : obj) : value :=
  if has_prop k o then get_prop k o
  else if inherited k then builtin else VUndefined.

(** The own enumerable properties of a value, as [_.defaults] and
    [_.extend] enumerate those of a source. *)
Definition own_props (v : value) : obj :=
  match v with
  | VObj p => p
  | VInst _ d => d
  | VArr l => imap (fun i x => (pretty i, x)) l
  | _ => []
  end.

(** [v[k]] on a value that is neither [undefined] nor [null]. *)
Definition get_member (v : value) (k : string) : value :=
  get_prop k (own_props v).

(** [v[key]] with a computed key. *)
Definition get_computed (v : value) (key : value) : value :=
  get_member v (to_string key).

(** ** Errors and outcomes *)

Inductive error : Type :=
| Error (message : string)
| TypeError (message : string)
| Rejected (reason : value).

Inductive outcome (A : Type) : Type :=
| Ok (a : A)
| Throw (e : error).
Arguments Ok {A} a.
Arguments Throw {A} e.

(** [v.k]: reading a property of [undefined] or [null] throws. *)
Definition member (v : value) (k : string) : outcome value :=
  match v with
  | VUndefined | VNull =>
      Throw (TypeError ("Cannot read property '" +:+ k +:+ "' of undefined"))
  | _ => Ok (get_member v k)
  end.

(** ** lodash *)

(** [_.defaults(dest, ...sources)]: a property of a source is copied only
    where the destination resolves to [undefined]. *)
Definition defaults1 (dest : obj) (src : value) : obj :=
  fold_left
    (fun d kv => if is_undefined (get_prop (fst kv) d)
                 then set_prop (fst kv) (snd kv) d else d)
    (own_props src) dest.

Definition defaults (dest : obj) (sources : list value) : obj :=
  fold_left defaults1 sources dest.

(** [_.extend(dest, src)]: every property of the source is assigned. *)
Definition extend (dest : obj) (src : value) : obj :=
  fold_left (fun d kv => set_prop (fst kv) (snd kv) d) (own_props src) dest.

(* ===================================================================== *)
(** ** Collaborators outside lib/associations/belongs-to.js *)
(* ===================================================================== *)

Module Utils.

Definition is_upper (c : ascii) : bool :=
  Nat.leb 65 (nat_of_ascii c) && Nat.leb (nat_of_ascii c) 90.

Definition is_lower (c : ascii) : bool :=
  Nat.leb 97 (nat_of_ascii c) && Nat.leb (nat_of_ascii c) 122.

Definition to_upper (c : ascii) : ascii :=
  if is_lower c then ascii_of_nat (nat_of_ascii c - 32) else c.

Definition to_lower (c : ascii) : ascii :=
  if is_upper c then ascii_of_nat (nat_of_ascii c + 32) else c.

Definition is_separator (c : ascii) : bool :=
  Ascii.eqb c "_" || Ascii.eqb c "-" || Ascii.eqb c " ".

Fixpoint camelize_from (up : bool) (s : string) : string :=
  match s with
  | EmptyString => EmptyString
  | String c r =>
      if is_separator c then camelize_from true r
      else String (if up then to_upper c else c) (camelize_from false r)
  end.

(** Modelled from the spec: [Utils.camelize] of lib/utils, which is not
    among the sources.  The specification asks for the "camel-cased"
    name: every run of separators is dropped and the character after it
    is upper-cased. *)
Definition camelize (s : string) : string := camelize_from false s.

Fixpoint underscore_from (first : bool) (s : string) : string :=
  match s with
  | EmptyString => EmptyString
  | String c r =>
      if is_upper c then
        if first then String (to_lower c) (underscore_from false r)
        else String "_" (String (to_lower c) (underscore_from false r))
      else String c (underscore_from false r)
  end.

(** Modelled from the spec: the "underscored" form of a name, computed in
    lib/utils, which is not among the sources: lower case, with an
    underscore in front of every capital letter but the first
    character. *)
Definition underscore (s : string) : string := underscore_from true s.

(** [Utils.camelizeIf(str, condition)] *)
Definition camelizeIf (s : string) (condition : bool) : string :=
  if condition then camelize s else s.

(** [Utils.underscoredIf(string, condition)]: the argument itself unless
    the condition holds. *)
Definition underscoredIf (s : value) (condition : bool) : value :=
  if condition then VStr (underscore (to_string s)) else s.

(** Modelled from the spec: [Utils.uppercaseFirst], not among the sources
    (accessor names carry the capitalized alias). *)
Definition uppercaseFirst (s : string) : string :=
  match s with
  | EmptyString => EmptyString
  | String c r => String (to_upper c) r
  end.

(** Modelled from the spec: [Utils.mergeDefaults] of lib/utils, which is
    not among the sources.  Default-merge semantics: a name already
    present in the destination keeps its definition, a name that is absent
    is added. *)
Definition mergeDefaults (a b : obj) : obj :=
  fold_left
    (fun acc kv => if has_prop (fst kv) acc then acc
                   else set_prop (fst kv) (snd kv) acc)
    b a.

(** [Utils.cloneDeep]: values are immutable here, so a deep copy is the
    value itself. *)
Definition cloneDeep (o : obj) : obj := o.

End Utils.

(** The operator table of lib/operators, which is not among the sources.
    Modelled from the spec: [Op.in] is the membership condition and [Op.and]
    the logical conjunction; each is a symbol, written here as a property
    key of its own. *)
Module Op.
Definition in_ : string := "Symbol(in)".
Definition and : string := "Symbol(and)".
End Op.

(** ** Models and the registry *)

Module Model.

(** [options.name] of a model *)
Record name_t : Type := { singular : string; plural : string }.

Record options_t : Type := { name : name_t; underscored : bool }.

Record t : Type := {
  options : options_t;
  rawAttributes : obj;
  primaryKeyAttribute : value
}.

Definition name_value (n : name_t) : value :=
  VObj [("plural", VStr (plural n)); ("singular", VStr (singular n))].

Definition with_rawAttributes (a : obj) (m : t) : t :=
  {| options := options m; rawAttributes := a;
     primaryKeyAttribute := primaryKeyAttribute m |}.

End Model.

(** The models that exist, by name; an association refers to its source and
    target by name, so that a model which refers to itself is one entry. *)
Abbreviation Registry := (gmap string Model.t).

(** ** The monad of synchronous code: registry state and exceptions *)

Definition M (A : Type) : Type := Registry -> outcome A * Registry.

#[global] Instance M_ret : MRet M := fun A a r => (Ok a, r).

#[global] Instance M_bind : MBind M := fun A B f m r =>
  match m r with
  | (Ok a, r') => f a r'
  | (Throw e, r') => (Throw e, r')
  end.

Definition throw {A : Type} (e : error) : M A := fun r => (Throw e, r).

Definition lift {A : Type} (o : outcome A) : M A := fun r => (o, r).

(** Reading a model through its reference. *)
Definition model (ref : string) : M Model.t := fun r =>
  match r !! ref with
  | Some m => (Ok m, r)
  | None => (Throw (TypeError "Cannot read property of undefined"), r)
  end.

(** Replacing the attribute registry of a model. *)
Definition put_rawAttributes (ref : string) (a : obj) : M unit := fun r =>
  (Ok tt, alter (Model.with_rawAttributes a) ref r).

(** [l.map(f)] where [f] may throw *)
Fixpoint mapM {A B : Type} (f : A -> M B) (l : list A) : M (list B) :=
  match l with
  | [] => mret []
  | x :: r => y ← f x; ys ← mapM f r; mret (y :: ys)
  end.

(** ** Instances, query targets and asynchronous programs *)

Module Instance.

Record t : Type := { class_of : class; dataValues : obj }.

Definition to_value (i : t) : value := VInst (class_of i) (dataValues i).

(** Modelled from the spec: the model class of lib/model is not among the
    sources; an instance exposes "get/set of attribute values by name".
    The name is a computed property key. *)
Definition get (i : t) (key : value) : value :=
  get_prop (to_string key) (dataValues i).

Definition set (i : t) (key : value) (v : value) : t :=
  {| class_of := class_of i;
     dataValues := set_prop (to_string key) v (dataValues i) |}.

End Instance.

(** The model class a query is sent to: the target itself, or what
    [unscoped()], [scope(...)] and [schema(...)] make of it. *)
Module Target.
Inductive t : Type :=
| model (ref : string)
| unscoped (T : t)
| scope (s : value) (T : t)
| schema (s delimiter : value) (T : t).
End Target.

(** The calls that return a promise. *)
Inductive call : Type :=
| FindById (T : Target.t) (id : value) (options : obj)
| FindAll (T : Target.t) (options : obj)
| FindOne (T : Target.t) (options : obj)
| Save (instance : Instance.t) (options : obj)
| Create (T : string) (values : value) (options : value).

(** An asynchronous computation: it returns, throws, or issues a call and
    continues with the value the promise is fulfilled with. *)
Inductive Prog (A : Type) : Type :=
| Return (a : A)
| Fail (e : error)
| Call (c : call) (k : value -> Prog A).
Arguments Return {A} a.
Arguments Fail {A} e.
Arguments Call {A} c k.

(** How the outside world settles each call: fulfilled with a value, or
    rejected. *)
Definition World : Type := call -> outcome value.

(** Running a program: its outcome and the calls issued, in order.  A
    rejected call settles the whole chain. *)
Fixpoint run {A : Type} (w : World) (p : Prog A) : outcome A * list call :=
  match p with
  | Return a => (Ok a, [])
  | Fail e => (Throw e, [])
  | Call c k =>
      match w c with
      | Ok v => let '(r, calls) := run w (k v) in (r, c :: calls)
      | Throw e => (Throw e, [c])
      end
  end.

(* ===================================================================== *)
(** ** class BelongsTo: construction *)
(* ===================================================================== *)

Module BelongsTo.

(** The properties of a constructed association.  [source] and [target]
    are references into the registry.  [foreignKey] and [targetKey] are
    the two properties that [get] and [set] read in the singular: no
    statement of the class assigns them. *)
Record t : Type := {
  source : string;
  target : string;
  options : obj;
  as_ : value;
  associationType : string;
  isSingleAssociation : bool;
  isAliased : bool;
  foreignKeys : list value;
  targetKeys : list value;
  identifiers : list value;
  identifierFields : list value;
  targetKeyFields : list value;
  singlePrimaryTargetKey : value;
  associationAccessor : value;
  accessors : obj;
  foreignKey : value;
  targetKey : value
}.

(** [_getDefaultForeignKeyName()], on the three properties of [this] that
    it reads. *)
Definition _getDefaultForeignKeyName
    (as_ : value) (source target : string) : M string :=
  S ← model source;
  T ← model target;
  let underscored := Model.underscored (Model.options S) in
  mret (Utils.camelizeIf
          (join "_" [Utils.underscoredIf as_ underscored;
                     Model.primaryKeyAttribute T])
          (negb underscored)).

Definition arity_message : string :=
  "targetKey must be array of equal length when foreignKey is an array, and vice versa".

(** [.length] of an array *)
Definition array_length (v : value) : nat :=
  match v with VArr l => length l | _ => 0%nat end.

(** Lines 36-41: the condition under which the constructor throws. *)
Definition arity_mismatch (foreignKey targetKey : value) : bool :=
  (isArray foreignKey || isArray targetKey) &&
  (negb (isArray foreignKey) || negb (isArray targetKey) ||
   negb (Nat.eqb (array_length foreignKey) (array_length targetKey))).

(** Lines 47-65: [this.foreignKeys] after the three-way branch, [None]
    for the initial [null]. *)
Definition resolve_foreignKeys
    (as_ : value) (source target : string) (foreignKey : value)
    : M (option (list value)) :=
  match foreignKey with
  | VArr l =>
      mret (Some (map (fun k => if isObject k then k
                                else VObj [("name", k)]) l))
  | _ =>
      if isObject foreignKey then
        name ← (if truthy (get_member foreignKey "name")
                then mret (get_member foreignKey "name")
                else d ← _getDefaultForeignKeyName as_ source target;
                     mret (VStr d));
        mret (Some [VObj (defaults [] [foreignKey; VObj [("name", name)]])])
      else if truthy foreignKey then
        mret (Some [VObj [("name", foreignKey)]])
      else mret None
  end.

(** Lines 26-34: whether the association is aliased, [this.as] and
    [this.options.name]. *)
Definition resolve_alias (target : string) (options : obj)
    : M (bool * value * value) :=
  let as0 := get_prop "as" options in
  if truthy as0
  then mret (true, as0, VObj [("singular", as0)])
  else T ← model target;
       let n := Model.name (Model.options T) in
       mret (false, VStr (Model.singular n), Model.name_value n).

(** Lines 81-85 *)
Definition resolve_targetKeys (targetKey : value) (T : Model.t)
    : list value :=
  match targetKey with
  | VArr l => l
  | _ => [js_or targetKey (Model.primaryKeyAttribute T)]
  end.

(** Lines 87-89: the storage field of one target key. *)
Definition targetKeyField (T : Model.t) (targetKey : value) : M value :=
  field ← lift (member (read_prop (to_string targetKey)
                                  (Model.rawAttributes T))
                       "field");
  mret (js_or field targetKey).

(** Lines 77-79 *)
Definition resolve_identifierFields (S : Model.t) (identifiers : list value)
    : list value :=
  map (fun identifier =>
         js_or (get_member
                  (read_prop (to_string identifier) (Model.rawAttributes S))
                  "field")
               identifier)
      (List.filter (fun identifier =>
                 truthy (read_prop (to_string identifier)
                                   (Model.rawAttributes S)))
              identifiers).

(** Lines 91-94 *)
Definition resolve_singlePrimaryTargetKey (T : Model.t)
    (foreignKeys targetKeys : list value) : value :=
  if Nat.eqb (length targetKeys) 1 &&
     strict_eq (nth 0 targetKeys VUndefined) (Model.primaryKeyAttribute T)
  then get_member (nth 0 foreignKeys VUndefined) "name"
  else VNull.

(** Lines 47-106: the constructor after the arity check. *)
Definition resolve_keys (isAliased : bool) (as_ : value)
    (source target : string) (options : obj) : M t :=
  let foreignKey := get_prop "foreignKey" options in
  let targetKey := get_prop "targetKey" options in
  resolved ← resolve_foreignKeys as_ source target foreignKey;
  foreignKeys ←
    match resolved with
    | Some l => mret l
    | None => d ← _getDefaultForeignKeyName as_ source target;
              mret [VObj [("name", VStr d)]]
    end;
  let identifiers := foreignKeys in
  S ← model source;
  let identifierFields := resolve_identifierFields S identifiers in
  T ← model target;
  let targetKeys := resolve_targetKeys targetKey T in
  targetKeyFields ← mapM (targetKeyField T) targetKeys;
  let singlePrimaryTargetKey :=
    resolve_singlePrimaryTargetKey T foreignKeys targetKeys in
  let options := set_prop "useHooks" (get_prop "useHooks" options) options in
  let singular :=
    Utils.uppercaseFirst
      (to_string (get_member (get_prop "name" options) "singular")) in
  mret {| source := source;
          target := target;
          options := options;
          as_ := as_;
          associationType := "BelongsTo";
          isSingleAssociation := true;
          isAliased := isAliased;
          foreignKeys := foreignKeys;
          targetKeys := targetKeys;
          identifiers := identifiers;
          identifierFields := identifierFields;
          targetKeyFields := targetKeyFields;
          singlePrimaryTargetKey := singlePrimaryTargetKey;
          associationAccessor := as_;
          accessors := [("get", VStr ("get" +:+ singular));
                        ("set", VStr ("set" +:+ singular));
                        ("create", VStr ("create" +:+ singular))];
          foreignKey := VUndefined;
          targetKey := VUndefined |}.

(** [new BelongsTo(source, target, options)].  The inherited constructor
    stores [source], [target] and [options] and takes [this.as] from
    [options.as]. *)
Definition new (source target : string) (options : obj) : M t :=
  aliasing ← resolve_alias target options;
  let '(isAliased, as_, name) := aliasing in
  let options := set_prop "name" name options in
  if arity_mismatch (get_prop "foreignKey" options)
                    (get_prop "targetKey" options)
  then throw (Error arity_message)
  else resolve_keys isAliased as_ source target options.

(** *** injectAttributes *)

Section Injection.

(** [Helpers.addForeignKeyConstraints(newAttribute, target, source,
    options, key)] of lib/associations/helpers, which is not among the
    sources: it fills in constraint metadata on [newAttribute], here
    returned. *)
Variable addForeignKeyConstraints :
  obj -> Model.t -> Model.t -> obj -> value -> obj.

(** [Helpers.checkNamingCollision(association)]: the error it throws,
    if any. *)
Variable checkNamingCollision : t -> Registry -> option error.

(** Modelled from the spec: [source.refreshAttributes()] of lib/model,
    not among the sources, "recompute[s] derived schema caches"; the
    registry holds none of them. *)
Definition refreshAttributes (ref : string) : M unit := mret tt.

(** The body of the [forEach] of lines 113-133, on the [newAttributes]
    built so far. *)
Definition inject_one (a : t) (newAttributes : obj)
    (foreignKey : value) (index : nat) : M obj :=
  let targetKey := nth index (targetKeys a) VUndefined in
  let targetKeyField := nth index (targetKeyFields a) VUndefined in
  if negb (truthy targetKey) then throw (Error "Missing target key")
  else
    type ←
      (if truthy (get_prop "keyType" (options a))
       then mret (get_prop "keyType" (options a))
       else T ← model (target a);
            lift (member (read_prop (to_string targetKey)
                                    (Model.rawAttributes T))
                         "type"));
    let newAttribute :=
      defaults [] [foreignKey;
                   VObj [("type", type); ("allowNull", VBool true)]] in
    name ← lift (member foreignKey "name");
    T ← model (target a);
    S ← model (source a);
    mret (set_prop (to_string name)
            (VObj (addForeignKeyConstraints newAttribute T S (options a)
                     targetKeyField))
            newAttributes).

Fixpoint inject_each (a : t) (l : list value) (index : nat)
    (newAttributes : obj) : M obj :=
  match l with
  | [] => mret newAttributes
  | foreignKey :: r =>
      newAttributes ← inject_one a newAttributes foreignKey index;
      inject_each a r (S index) newAttributes
  end.

Definition check_collision (a : t) : M unit := fun r =>
  match checkNamingCollision a r with
  | Some e => (Throw e, r)
  | None => (Ok tt, r)
  end.

Definition injectAttributes (a : t) : M t :=
  newAttributes ← inject_each a (foreignKeys a) 0 [];
  S ← model (source a);
  _ ← put_rawAttributes (source a)
        (Utils.mergeDefaults (Model.rawAttributes S) newAttributes);
  _ ← refreshAttributes (source a);
  _ ← check_collision a;
  mret a.

End Injection.

(** *** get *)

(** The query target after [options.scope] and [options.schema]. *)
Definition resolve_target (association : t) (options : obj) : Target.t :=
  let Target := Target.model (target association) in
  let Target :=
    if has_prop "scope" options then
      if negb (truthy (get_prop "scope" options)) then Target.unscoped Target
      else Target.scope (get_prop "scope" options) Target
    else Target in
  if has_prop "schema" options then
    Target.schema (get_prop "schema" options)
                  (get_prop "schemaDelimiter" options) Target
  else Target.

(** The two [forEach] loops that fill [where]: the condition on target
    key number [index] is [condition] applied to the name of foreign key
    number [index]. *)
Fixpoint where_each (association : t) (condition : value -> value)
    (l : list value) (index : nat) (where_ : obj) : outcome obj :=
  match l with
  | [] => Ok where_
  | foreignKey :: r =>
      match member foreignKey "name" with
      | Throw e => Throw e
      | Ok name =>
          where_each association condition r (S index)
            (set_prop (to_string (nth index (targetKeys association) VUndefined))
                      (condition name) where_)
      end
  end.

(** Line 209 *)
Definition and_where (where_ : obj) (options : obj) : obj :=
  set_prop "where"
    (if truthy (get_prop "where" options)
     then VObj [(Op.and, VArr [VObj where_; get_prop "where" options])]
     else VObj where_)
    options.

(** Lines 213-222: the mapping returned in batch mode. *)
Fixpoint result_each (association : t) (results : list value)
    (result : obj) : outcome obj :=
  match results with
  | [] => Ok result
  | VInst c d :: r =>
      result_each association r
        (set_prop
           (to_string (Instance.get {| Instance.class_of := c;
                                       Instance.dataValues := d |}
                                    (targetKey association)))
           (VInst c d) result)
  | _ :: _ => Throw (TypeError "instance.get is not a function")
  end.

Definition batch_result (association : t) (instances : list Instance.t)
    (results : value) : outcome obj :=
  let result :=
    fold_left
      (fun result instance =>
         set_prop (to_string (Instance.get instance (foreignKey association)))
                  VNull result)
      instances [] in
  match results with
  | VArr l => result_each association l result
  | _ => Throw (TypeError "results is not iterable")
  end.

(** [get(instances, options)]: the first argument is one instance or an
    array of instances. *)
Definition get (association : t) (instances : Instance.t + list Instance.t)
    (options : obj) : Prog value :=
  let options := Utils.cloneDeep options in
  let Target := resolve_target association options in
  match instances with
  | inr instances =>
      match where_each association
              (fun name =>
                 VObj [(Op.in_,
                        VArr (map (fun instance => Instance.get instance name)
                                  instances))])
              (foreignKeys association) 0 [] with
      | Throw e => Fail e
      | Ok where_ =>
          let options := and_where where_ options in
          Call (FindAll Target options)
               (fun results =>
                  match batch_result association instances results with
                  | Ok result => Return (VObj result)
                  | Throw e => Fail e
                  end)
      end
  | inl instance =>
      if truthy (singlePrimaryTargetKey association) &&
         negb (truthy (get_prop "where" options))
      then
        Call (FindById Target
                (Instance.get instance (singlePrimaryTargetKey association))
                options)
             Return
      else
        match where_each association
                (fun name => Instance.get instance name)
                (foreignKeys association) 0 [] with
        | Throw e => Fail e
        | Ok where_ =>
            let options := set_prop "limit" VNull options in
            let options := and_where where_ options in
            Call (FindOne Target options) Return
        end
  end.

(** *** set *)

(** [associatedInstance instanceof association.target] *)
Definition instanceof_target (association : t) (v : value) : bool :=
  match v with
  | VInst c _ => class_eqb c (ModelClass (target association))
  | _ => false
  end.

(** Lines 242-245: the value to assign. *)
Definition key_value (association : t) (associatedInstance : value)
    : value :=
  if instanceof_target association associatedInstance
  then get_computed associatedInstance (targetKey association)
  else associatedInstance.

(** Lines 251-258 *)
Definition save_options (association : t) (options : value) : obj :=
  extend [("fields", VArr [foreignKey association]);
          ("allowNull", VArr [foreignKey association]);
          ("association", VBool true)]
         options.

Section Instances.

(** [sourceInstance.set(key, value)] of lib/model, which is not among the
    sources: the instance as the call leaves it, or the error it
    throws. *)
Variable instance_set : Instance.t -> value -> value -> outcome Instance.t.

(** Lines 242-247: the in-memory assignment. *)
Definition assign (association : t) (sourceInstance : Instance.t)
    (associatedInstance : value) : outcome Instance.t :=
  let value := key_value association associatedInstance in
  instance_set sourceInstance (foreignKey association) value.

(** [set(sourceInstance, associatedInstance, options)] on an instance
    whose [set] method is [instance_set]: the source instance as the call
    leaves it, and the value returned or resolved to. *)
Definition set_on (association : t) (sourceInstance : Instance.t)
    (associatedInstance : value) (options : value)
    : Prog (Instance.t * value) :=
  let options := js_or options (VObj []) in
  match assign association sourceInstance associatedInstance with
  | Throw e => Fail e
  | Ok sourceInstance =>
      if strict_eq (get_member options "save") (VBool false)
      then Return (sourceInstance, VUndefined)
      else
        Call (Save sourceInstance (save_options association options))
             (fun saved => Return (sourceInstance, saved))
  end.

End Instances.

(** [set] on the instances of [Instance], whose attributes are set by
    name. *)
Definition set (association : t) (sourceInstance : Instance.t)
    (associatedInstance : value) (options : value)
    : Prog (Instance.t * value) :=
  set_on (fun instance key v => Ok (Instance.set instance key v))
         association sourceInstance associatedInstance options.

(** *** create *)


(** Lines 275-280: the options handed to the setter. *)
Definition link_options (fieldsOrOptions : value) : obj :=
  let options := [] in
  let options :=
    match get_member (js_or fieldsOrOptions (VObj [])) "transaction" with
    | VInst TransactionClass _ =>
        set_prop "transaction" (get_member fieldsOrOptions "transaction")
                 options
    | _ => options
    end in
  set_prop "logging"
    (get_member (js_or fieldsOrOptions (VObj [])) "logging") options.

Section Accessors.

(** [sourceInstance[name](newAssociation, options)]: what the method that
    the source instance has under an accessor name does when it is called.
    The methods are registered by [Helpers.mixinMethods], which is not
    among the sources. *)
Variable call_accessor :
  value -> Instance.t -> value -> value -> Prog (Instance.t * value).


End Accessors.


End BelongsTo.

(* ===================================================================== *)
(** ** A small schema used to evaluate the code *)
(* ===================================================================== *)

Module Library.

Definition model_named (singular plural : string) (underscored : bool)
    (attributes : obj) : Model.t :=
  {| Model.options :=
       {| Model.name := {| Model.singular := singular;
                           Model.plural := plural |};
          Model.underscored := underscored |};
     Model.rawAttributes := attributes;
     Model.primaryKeyAttribute := VStr "id" |}.

Definition id_attribute : value :=
  VObj [("type", VStr "INTEGER"); ("primaryKey", VBool true)].

(** The target. *)
Definition User : Model.t :=
  model_named "User" "Users" false
    [("id", id_attribute); ("email", VObj [("type", VStr "STRING")])].

(** A source that already declares its foreign key, stored in the column
    [author_id]. *)
Definition Book : Model.t :=
  model_named "Book" "Books" false
    [("id", id_attribute);
     ("AuthorId", VObj [("type", VStr "BIGINT"); ("field", VStr "author_id")]);
     ("EditorId", VObj [("type", VStr "INTEGER")])].

(** A source that follows the underscored naming convention. *)
Definition Post : Model.t :=
  model_named "Post" "Posts" true [("id", id_attribute)].

Definition registry : Registry :=
  <["Book" := Book]> (<["Post" := Post]> (<["User" := User]> ∅)).

(** Collaborators that add no constraint metadata and report no
    collision. *)
Definition no_constraints (newAttribute : obj) (T S : Model.t)
    (options : obj) (key : value) : obj := newAttribute.

Definition no_collision (a : BelongsTo.t) (r : Registry) : option error :=
  None.

(** [Book.belongsTo(User, { as: 'Author' })], as constructed. *)
Definition author : BelongsTo.t :=
  {| BelongsTo.source := "Book";
     BelongsTo.target := "User";
     BelongsTo.options := [("as", VStr "Author");
                           ("name", VObj [("singular", VStr "Author")]);
                           ("useHooks", VUndefined)];
     BelongsTo.as_ := VStr "Author";
     BelongsTo.associationType := "BelongsTo";
     BelongsTo.isSingleAssociation := true;
     BelongsTo.isAliased := true;
     BelongsTo.foreignKeys := [VObj [("name", VStr "AuthorId")]];
     BelongsTo.targetKeys := [VStr "id"];
     BelongsTo.identifiers := [VObj [("name", VStr "AuthorId")]];
     BelongsTo.identifierFields := [];
     BelongsTo.targetKeyFields := [VStr "id"];
     BelongsTo.singlePrimaryTargetKey := VStr "AuthorId";
     BelongsTo.associationAccessor := VStr "Author";
     BelongsTo.accessors := [("get", VStr "getAuthor");
                             ("set", VStr "setAuthor");
                             ("create", VStr "createAuthor")];
     BelongsTo.foreignKey := VUndefined;
     BelongsTo.targetKey := VUndefined |}.

Definition book (id authorId : Z) : Instance.t :=
  {| Instance.class_of := ModelClass "Book";
     Instance.dataValues := [("id", VNum id); ("AuthorId", VNum authorId)] |}.

Definition user (id : Z) : value :=
  VInst (ModelClass "User") [("id", VNum id)].

(** A world with the users 1 and 2: every query answers with them, a
    lookup by primary key with the first, [save] resolves to the saved
    instance and [create] to a new user 3. *)
Definition world : World := fun c =>
  match c with
  | FindAll _ _ => Ok (VArr [user 1; user 2])
  | FindById _ _ _ => Ok (user 1)
  | FindOne _ _ => Ok (user 1)
  | Save instance _ => Ok (Instance.to_value instance)
  | Create _ _ _ => Ok (user 3)
  end.

End Library.

(* ===================================================================== *)
(** ** Vocabulary of the properties *)
(* ===================================================================== *)

(** A computation is a reader when it leaves the registry as it found it
    and throws nothing but type errors. *)
Definition reader {A : Type} (m : M A) : Prop :=
  forall r, snd (m r) = r /\
            forall e, fst (m r) = Throw e -> exists msg, e = TypeError msg.

(** "Both are arrays of identical length." *)
Definition same_length_arrays (foreignKey targetKey : value) : Prop :=
  exists lf lt, foreignKey = VArr lf /\ targetKey = VArr lt /\
                length lf = length lt.

(** The type error of reading [.field] on an absent attribute. *)
Definition field_of_undefined : error :=
  TypeError "Cannot read property 'field' of undefined".

(** [this.as]: the alias, or the singular name of the target. *)
Definition alias_of (options : obj) (T : Model.t) : value :=
  if truthy (get_prop "as" options) then get_prop "as" options
  else VStr (Model.singular (Model.name (Model.options T))).

(** What [_getDefaultForeignKeyName] returns for a source [S] and a target
    [T]. *)
Definition default_name (as_ : value) (S T : Model.t) : string :=
  Utils.camelizeIf
    (join "_" [Utils.underscoredIf as_ (Model.underscored (Model.options S));
               Model.primaryKeyAttribute T])
    (negb (Model.underscored (Model.options S))).

(** What lines 47-73 leave in [this.foreignKeys]. *)
Definition foreignKeys_of (as_ : value) (S T : Model.t) (foreignKey : value)
    : list value :=
  match foreignKey with
  | VArr l => map (fun k => if isObject k then k else VObj [("name", k)]) l
  | _ =>
      if isObject foreignKey then
        [VObj (defaults []
                 [foreignKey;
                  VObj [("name",
                         if truthy (get_member foreignKey "name")
                         then get_member foreignKey "name"
                         else VStr (default_name as_ S T))]])]
      else if truthy foreignKey then [VObj [("name", foreignKey)]]
      else [VObj [("name", VStr (default_name as_ S T))]]
  end.

(** A target key names an attribute of the target: the attribute registry
    holds a descriptor for it. *)
Definition names_attribute (T : Model.t) (targetKey : value) : Prop :=
  is_nullish (get_prop (to_string targetKey) (Model.rawAttributes T)) = false.

(** The association that the constructor builds from a source [S] and a
    target [T] once the storage fields of the target keys are resolved. *)
Definition constructed (source target : string) (options : obj)
    (S T : Model.t) (targetKeyFields : list value) : BelongsTo.t :=
  let as_ := alias_of options T in
  let name :=
    if truthy (get_prop "as" options)
    then VObj [("singular", get_prop "as" options)]
    else Model.name_value (Model.name (Model.options T)) in
  let options' := set_prop "name" name options in
  let foreignKeys := foreignKeys_of as_ S T (get_prop "foreignKey" options) in
  let targetKeys :=
    BelongsTo.resolve_targetKeys (get_prop "targetKey" options) T in
  let options'' :=
    set_prop "useHooks" (get_prop "useHooks" options') options' in
  let singular :=
    Utils.uppercaseFirst
      (to_string (get_member (get_prop "name" options'') "singular")) in
  {| BelongsTo.source := source;
     BelongsTo.target := target;
     BelongsTo.options := options'';
     BelongsTo.as_ := as_;
     BelongsTo.associationType := "BelongsTo";
     BelongsTo.isSingleAssociation := true;
     BelongsTo.isAliased := truthy (get_prop "as" options);
     BelongsTo.foreignKeys := foreignKeys;
     BelongsTo.targetKeys := targetKeys;
     BelongsTo.identifiers := foreignKeys;
     BelongsTo.identifierFields :=
       BelongsTo.resolve_identifierFields S foreignKeys;
     BelongsTo.targetKeyFields := targetKeyFields;
     BelongsTo.singlePrimaryTargetKey :=
       BelongsTo.resolve_singlePrimaryTargetKey T foreignKeys targetKeys;
     BelongsTo.associationAccessor := as_;
     BelongsTo.accessors := [("get", VStr ("get" +:+ singular));
                             ("set", VStr ("set" +:+ singular));
                             ("create", VStr ("create" +:+ singular))];
     BelongsTo.foreignKey := VUndefined;
     BelongsTo.targetKey := VUndefined |}.

(** [target.rawAttributes[targetKey]] is neither [undefined] nor [null]:
    the key names an attribute of the target, or a member that the
    attribute registry inherits as a plain object. *)
Definition resolves (T : Model.t) (targetKey : value) : Prop :=
  is_nullish (read_prop (to_string targetKey) (Model.rawAttributes T)) = false.

(** The storage field of each target key, as lines 87-89 compute it when
    every key resolves. *)
Definition targetKeyFields_of (T : Model.t) (targetKeys : list value)
    : list value :=
  map (fun targetKey =>
         js_or (get_member (read_prop (to_string targetKey)
                                      (Model.rawAttributes T)) "field")
               targetKey)
      targetKeys.

(** "Exactly one key pair whose target key equals the target's primary
    key." *)
Definition one_primary_pair (a : BelongsTo.t) (T : Model.t) : Prop :=
  exists targetKey,
    BelongsTo.targetKeys a = [targetKey] /\
    strict_eq targetKey (Model.primaryKeyAttribute T) = true.

(** A computation that leaves the registry as it found it, whatever it
    returns or throws. *)
Definition leaves {A : Type} (m : M A) : Prop := forall r, snd (m r) = r.

(* ===================================================================== *)
(** ** Objects: reading after writing *)
(* ===================================================================== *)

Section Objects.

Implicit Types (k : string) (v : value) (o : obj).

Lemma get_prop_set_prop_eq k v o : get_prop k (set_prop k v o) = v.
Proof.
  induction o as [|[k' v'] o IH]; simpl.
  - now rewrite String.eqb_refl.
  - destruct (String.eqb k k') eqn:E; simpl.
    + now rewrite String.eqb_refl.
    + now rewrite E.
Qed.

Lemma get_prop_set_prop_ne k k' v o :
  k <> k' -> get_prop k (set_prop k' v o) = get_prop k o.
Proof.
  intros Hne. apply String.eqb_neq in Hne.
  induction o as [|[k0 v0] o IH]; simpl.
  - now rewrite Hne.
  - destruct (String.eqb k' k0) eqn:E; simpl.
    + apply String.eqb_eq in E. subst k0. now rewrite Hne.
    + now rewrite IH.
Qed.



(** Writing a name that is absent appends it. *)
Lemma set_prop_absent k v o :
  has_prop k o = false -> set_prop k v o = (o ++ [(k, v)])%list.
Proof.
  induction o as [|[k' v'] o IH]; simpl; [reflexivity|].
  destruct (String.eqb k k'); [discriminate|].
  intros H. now rewrite IH.
Qed.

Lemma get_prop_app_present k o o' :
  has_prop k o = true -> get_prop k (o ++ o')%list = get_prop k o.
Proof.
  induction o as [|[k' v'] o IH]; simpl; [discriminate|].
  destruct (String.eqb k k'); auto.
Qed.

Lemma has_prop_app k o o' :
  has_prop k (o ++ o')%list = has_prop k o || has_prop k o'.
Proof.
  induction o as [|[k' v'] o IH]; simpl; [reflexivity|].
  destruct (String.eqb k k'); auto.
Qed.

Lemma has_prop_false_get_prop k o :
  has_prop k o = false -> get_prop k o = VUndefined.
Proof.
  induction o as [|[k' v'] o IH]; simpl; [reflexivity|].
  destruct (String.eqb k k'); [discriminate|auto].
Qed.

Lemma has_prop_In k o : has_prop k o = true <-> In k (map fst o).
Proof.
  induction o as [|[k' v'] o IH]; simpl.
  - split; [discriminate|tauto].
  - destruct (String.eqb k k') eqn:E.
    + apply String.eqb_eq in E. subst. tauto.
    + apply String.eqb_neq in E. rewrite IH. split; [tauto|].
      intros [H|H]; [congruence|exact H].
Qed.

Lemma read_prop_not_inherited k o :
  inherited k = false -> read_prop k o = get_prop k o.
Proof.
  intros H. unfold read_prop. rewrite H.
  destruct (has_prop k o) eqn:E; [reflexivity|].
  symmetry. now apply has_prop_false_get_prop.
Qed.

Lemma read_prop_own k o :
  is_nullish (get_prop k o) = false -> read_prop k o = get_prop k o.
Proof.
  intros H. unfold read_prop. destruct (has_prop k o) eqn:E; [reflexivity|].
  rewrite (has_prop_false_get_prop _ _ E) in H. discriminate.
Qed.

End Objects.

(* ===================================================================== *)
(** ** The monad: sequencing, and code that only reads the registry *)
(* ===================================================================== *)

Lemma bind_run {A B : Type} (m : M A) (f : A -> M B) (r : Registry) :
  (m ≫= f) r =
  match m r with
  | (Ok a, r') => f a r'
  | (Throw e, r') => (Throw e, r')
  end.
Proof. reflexivity. Qed.

Lemma bind_ok {A B : Type} (m : M A) (f : A -> M B) (r r' : Registry) a :
  m r = (Ok a, r') -> (m ≫= f) r = f a r'.
Proof. intros H. rewrite bind_run. now rewrite H. Qed.

Lemma bind_throw {A B : Type} (m : M A) (f : A -> M B) (r r' : Registry) e :
  m r = (Throw e, r') -> (m ≫= f) r = (Throw e, r').
Proof. intros H. rewrite bind_run. now rewrite H. Qed.


Lemma reader_ret {A : Type} (a : A) : reader (mret a).
Proof. intros r. split; [reflexivity|]. simpl. discriminate. Qed.

Lemma reader_model (ref : string) : reader (model ref).
Proof.
  intros r. unfold model. destruct (r !! ref); simpl.
  - split; [reflexivity|discriminate].
  - split; [reflexivity|]. intros e [= <-]. eauto.
Qed.

Lemma reader_member (v : value) (k : string) : reader (lift (member v k)).
Proof.
  intros r. unfold lift, member. split; [reflexivity|]. simpl.
  destruct v; try discriminate; intros e [= <-]; eauto.
Qed.

Lemma reader_bind {A B : Type} (m : M A) (f : A -> M B) :
  reader m -> (forall a, reader (f a)) -> reader (m ≫= f).
Proof.
  intros Hm Hf r. rewrite bind_run. specialize (Hm r).
  destruct (m r) as [[a|e] r']; simpl in *; destruct Hm as [-> He].
  - apply Hf.
  - split; [reflexivity|]. simpl. intros e' [= <-]. now apply He.
Qed.

Lemma reader_mapM {A B : Type} (f : A -> M B) (l : list A) :
  (forall a, reader (f a)) -> reader (mapM f l).
Proof.
  intros Hf. induction l as [|x l IH]; simpl.
  - apply reader_ret.
  - apply reader_bind; [apply Hf|]. intros y.
    apply reader_bind; [exact IH|]. intros ys. apply reader_ret.
Qed.

Ltac reader :=
  repeat first
    [ apply reader_ret | apply reader_model | apply reader_member
    | apply reader_mapM; intros
    | apply reader_bind; [|intros]
    | match goal with
      | |- reader (if ?b then _ else _) => destruct b
      | |- reader (match ?x with _ => _ end) => destruct x
      end ].

Section ConstructorReads.

Import BelongsTo.

Lemma reader_getDefaultForeignKeyName as_ source target :
  reader (_getDefaultForeignKeyName as_ source target).
Proof. unfold _getDefaultForeignKeyName. reader. Qed.

Lemma reader_resolve_alias target options :
  reader (resolve_alias target options).
Proof. unfold resolve_alias. reader. Qed.

Lemma reader_resolve_foreignKeys as_ source target foreignKey :
  reader (resolve_foreignKeys as_ source target foreignKey).
Proof.
  unfold resolve_foreignKeys.
  destruct foreignKey; simpl; reader;
    apply reader_getDefaultForeignKeyName.
Qed.

Lemma reader_targetKeyField T targetKey : reader (targetKeyField T targetKey).
Proof. unfold targetKeyField. reader. Qed.

Lemma reader_resolve_keys isAliased as_ source target options :
  reader (resolve_keys isAliased as_ source target options).
Proof.
  unfold resolve_keys.
  apply reader_bind; [apply reader_resolve_foreignKeys|]. intros resolved.
  apply reader_bind.
  { destruct resolved; reader; apply reader_getDefaultForeignKeyName. }
  intros foreignKeys. reader; apply reader_targetKeyField.
Qed.

End ConstructorReads.

(* ===================================================================== *)
(** ** Construction: the arity check *)
(* ===================================================================== *)


Lemma arity_mismatch_spec (foreignKey targetKey : value) :
  isArray foreignKey || isArray targetKey = true ->
  BelongsTo.arity_mismatch foreignKey targetKey = true <->
  ~ same_length_arrays foreignKey targetKey.
Proof.
  intros Harr. unfold BelongsTo.arity_mismatch, same_length_arrays.
  rewrite Harr. simpl.
  destruct foreignKey, targetKey; simpl in *;
    try (split; [intros _ (lf & lt & ? & ? & _); discriminate|reflexivity]).
  destruct (Nat.eqb (length elems) (length elems0)) eqn:E; simpl.
  - apply Nat.eqb_eq in E. split; [discriminate|].
    intros H. exfalso. apply H. eauto.
  - apply Nat.eqb_neq in E. split; [|reflexivity].
    intros _ (lf & lt & [= <-] & [= <-] & H). contradiction.
Qed.

Lemma resolve_alias_ok (target : string) (options : obj) (r : Registry) T :
  r !! target = Some T ->
  BelongsTo.resolve_alias target options r
  = (Ok (truthy (get_prop "as" options), alias_of options T,
         if truthy (get_prop "as" options)
         then VObj [("singular", get_prop "as" options)]
         else Model.name_value (Model.name (Model.options T))), r).
Proof.
  intros HT. unfold BelongsTo.resolve_alias, alias_of.
  destruct (truthy (get_prop "as" options)); [reflexivity|].
  rewrite bind_run. unfold model. now rewrite HT.
Qed.

(** The constructor never writes to the registry and, past the arity check,
    throws nothing but type errors. *)
Lemma new_leaves_registry (source target : string) (options : obj)
    (r : Registry) :
  snd (BelongsTo.new source target options r) = r.
Proof.
  unfold BelongsTo.new. rewrite bind_run.
  destruct (reader_resolve_alias target options r) as [Hr _].
  destruct (BelongsTo.resolve_alias target options r) as [[[[al as_] name]|e] r'];
    simpl in Hr; subst r'; [|reflexivity].
  destruct (BelongsTo.arity_mismatch _ _); [reflexivity|].
  apply reader_resolve_keys.
Qed.

(** C4.  When [foreignKey] or [targetKey] is an array, construction throws
    the configuration error exactly when the two are not both arrays of
    identical length.  The error is thrown by the constructor, with the
    registry as it was, and nothing sequenced after the construction (such
    as attribute injection) runs. *)
Theorem arity_mismatch_fails_at_construction
    (source target : string) (options : obj) (r : Registry) :
  is_Some (r !! target) ->
  isArray (get_prop "foreignKey" options)
  || isArray (get_prop "targetKey" options) = true ->
  (~ same_length_arrays (get_prop "foreignKey" options)
                        (get_prop "targetKey" options) ->
   BelongsTo.new source target options r
   = (Throw (Error BelongsTo.arity_message), r) /\
   forall (B : Type) (k : BelongsTo.t -> M B),
     (BelongsTo.new source target options ≫= k) r
     = (Throw (Error BelongsTo.arity_message), r)) /\
  (same_length_arrays (get_prop "foreignKey" options)
                      (get_prop "targetKey" options) ->
   forall msg,
     fst (BelongsTo.new source target options r) <> Throw (Error msg)).
Proof.
  intros [T HT] Harr.
  pose proof (resolve_alias_ok target options r T HT) as Halias.
  set (al := truthy (get_prop "as" options)) in *.
  set (name := if al then _ else _) in *.
  assert (Hnew : BelongsTo.new source target options r =
                 if BelongsTo.arity_mismatch (get_prop "foreignKey" options)
                                             (get_prop "targetKey" options)
                 then (Throw (Error BelongsTo.arity_message), r)
                 else BelongsTo.resolve_keys al (alias_of options T)
                        source target (set_prop "name" name options) r).
  { unfold BelongsTo.new. rewrite (bind_ok _ _ _ _ _ Halias).
    rewrite !get_prop_set_prop_ne by discriminate.
    now destruct (BelongsTo.arity_mismatch _ _). }
  pose proof (arity_mismatch_spec _ _ Harr) as Hspec.
  split.
  - intros Hdiff. apply Hspec in Hdiff. rewrite Hdiff in Hnew.
    split; [exact Hnew|]. intros B k. now apply bind_throw.
  - intros Hsame msg.
    destruct (BelongsTo.arity_mismatch _ _) eqn:E.
    + exfalso. now apply (proj1 Hspec eq_refl).
    + rewrite Hnew. intros Hthrow.
      destruct (reader_resolve_keys al (alias_of options T) source target
                  (set_prop "name" name options) r) as [_ Hte].
      destruct (Hte _ Hthrow) as [m Hm]. discriminate.
Qed.

(** [foreignKey: ['a', 'b'], targetKey: ['x']] fails at construction. *)
Lemma arity_mismatch_fails_at_construction_witness :
  BelongsTo.new "Book" "User"
    [("foreignKey", VArr [VStr "a"; VStr "b"]); ("targetKey", VArr [VStr "x"])]
    Library.registry
  = (Throw (Error BelongsTo.arity_message), Library.registry).
Proof.
  refine (proj1 (proj1 (arity_mismatch_fails_at_construction
                   "Book" "User" _ Library.registry _ _) _)).
  - exists Library.User. reflexivity.
  - reflexivity.
  - intros (lf & lt & Hf & Ht & Hlen). simpl in Hf, Ht.
    injection Hf as <-. injection Ht as <-. simpl in Hlen. lia.
Defined.

(* ===================================================================== *)
(** ** Construction: a target key that names no attribute *)
(* ===================================================================== *)


Lemma getDefaultForeignKeyName_ok as_ source target (r : Registry) S T :
  r !! source = Some S -> r !! target = Some T ->
  BelongsTo._getDefaultForeignKeyName as_ source target r
  = (Ok (default_name as_ S T), r).
Proof.
  intros HS HT. unfold BelongsTo._getDefaultForeignKeyName.
  rewrite bind_run. unfold model at 1. rewrite HS.
  rewrite bind_run. unfold model at 1. rewrite HT. reflexivity.
Qed.

(** [this.foreignKeys], as lines 47-73 leave it: with both models in the
    registry these lines throw nothing, and the constructor continues. *)
Lemma foreignKeys_ok {B : Type} as_ source target foreignKey (r : Registry)
    S T (k : list value -> M B) :
  r !! source = Some S -> r !! target = Some T ->
  (resolved ← BelongsTo.resolve_foreignKeys as_ source target foreignKey;
   foreignKeys ←
     match resolved with
     | Some l => mret l
     | None => d ← BelongsTo._getDefaultForeignKeyName as_ source target;
               mret [VObj [("name", VStr d)]]
     end;
   k foreignKeys) r = k (foreignKeys_of as_ S T foreignKey) r.
Proof.
  intros HS HT. rewrite bind_run.
  unfold BelongsTo.resolve_foreignKeys, foreignKeys_of.
  pose proof (getDefaultForeignKeyName_ok as_ source target r S T HS HT) as Hd.
  destruct foreignKey; simpl;
    try (rewrite bind_run, bind_run, Hd; reflexivity);
    try reflexivity.
  - destruct b; simpl; [reflexivity|].
    rewrite bind_run, bind_run, Hd. reflexivity.
  - destruct (negb (Z.eqb n 0)); simpl; [reflexivity|].
    rewrite bind_run, bind_run, Hd. reflexivity.
  - destruct (negb (String.eqb s EmptyString)); simpl; [reflexivity|].
    rewrite bind_run, bind_run, Hd. reflexivity.
  - rewrite bind_run.
    destruct (truthy (get_member (VObj props) "name")); simpl; [reflexivity|].
    rewrite bind_run, Hd. reflexivity.
  - rewrite bind_run.
    destruct (truthy (get_member (VInst c data) "name")); simpl; [reflexivity|].
    rewrite bind_run, Hd. reflexivity.
Qed.

(** Steps a goal about the constructor past lines 47-73. *)
Ltac resolve_foreignKeys HS HT :=
  lazymatch goal with
  | |- context [mbind (fun resolved => mbind ?k _)
                      (BelongsTo.resolve_foreignKeys ?a ?s ?t ?fk) ?r] =>
      rewrite (foreignKeys_ok a s t fk r _ _ k HS HT)
  end.

Lemma targetKeyField_cases T targetKey (r : Registry) :
  (exists field, BelongsTo.targetKeyField T targetKey r = (Ok field, r)) \/
  BelongsTo.targetKeyField T targetKey r = (Throw field_of_undefined, r).
Proof.
  unfold BelongsTo.targetKeyField. rewrite bind_run. unfold lift, member.
  destruct (read_prop (to_string targetKey) (Model.rawAttributes T));
    (left; eexists; reflexivity) || (right; reflexivity).
Qed.

Lemma targetKeyField_missing T targetKey (r : Registry) :
  ~ resolves T targetKey ->
  BelongsTo.targetKeyField T targetKey r = (Throw field_of_undefined, r).
Proof.
  intros H. unfold BelongsTo.targetKeyField. rewrite bind_run.
  unfold lift, member, resolves in *.
  destruct (read_prop (to_string targetKey) (Model.rawAttributes T));
    try reflexivity; exfalso; now apply H.
Qed.

Lemma targetKeyFields_missing T targetKey (l : list value) (r : Registry) :
  In targetKey l ->
  ~ resolves T targetKey ->
  mapM (BelongsTo.targetKeyField T) l r = (Throw field_of_undefined, r).
Proof.
  intros Hin Hmiss. induction l as [|x l IH]; simpl; [contradiction|].
  rewrite bind_run. destruct Hin as [->|Hin].
  - now rewrite (targetKeyField_missing _ _ r Hmiss).
  - destruct (targetKeyField_cases T x r) as [[field ->] | ->]; [|reflexivity].
    rewrite bind_run. now rewrite (IH Hin).
Qed.

(** Past the arity check, a target key for which the attribute registry of
    the target has nothing, own or inherited, stops the constructor: it
    throws the type error of reading [field] on [undefined], with the
    registry as it was, and nothing sequenced after the construction
    runs. *)
Lemma unresolved_target_key_fails_at_construction
    (source target : string) (options : obj) (r : Registry)
    (S T : Model.t) (targetKey : value) :
  r !! source = Some S ->
  r !! target = Some T ->
  BelongsTo.arity_mismatch (get_prop "foreignKey" options)
                           (get_prop "targetKey" options) = false ->
  In targetKey (BelongsTo.resolve_targetKeys (get_prop "targetKey" options) T) ->
  ~ resolves T targetKey ->
  BelongsTo.new source target options r = (Throw field_of_undefined, r) /\
  forall (B : Type) (k : BelongsTo.t -> M B),
    (BelongsTo.new source target options ≫= k) r
    = (Throw field_of_undefined, r).
Proof.
  intros HS HT Harity Hin Hmiss.
  assert (Hnew : BelongsTo.new source target options r
                 = (Throw field_of_undefined, r)).
  { unfold BelongsTo.new.
    rewrite (bind_ok _ _ _ _ _ (resolve_alias_ok target options r T HT)).
    rewrite !get_prop_set_prop_ne by discriminate. rewrite Harity.
    unfold BelongsTo.resolve_keys.
    resolve_foreignKeys HS HT.
    rewrite bind_run. unfold model at 1. rewrite HS.
    rewrite bind_run. unfold model at 1. rewrite HT.
    rewrite !get_prop_set_prop_ne by discriminate.
    rewrite bind_run. now rewrite (targetKeyFields_missing T targetKey _ r Hin Hmiss). }
  split; [exact Hnew|]. intros B k. now apply bind_throw.
Qed.

(** C10, evaluated where it fails.  [Book.belongsTo(User, { targetKey:
    'nope' })] names a target key that is no attribute of [User].  The
    constructor throws the type error of reading [field] on [undefined]; so
    declaring the relationship (construction, then attribute injection)
    ends there, with the registry as it was, and not in the "Missing target
    key" error of attribute injection that the claim has. *)
Theorem missing_target_key_throws_in_constructor :
  read_prop "nope" (Model.rawAttributes Library.User) = VUndefined /\
  BelongsTo.new "Book" "User" [("targetKey", VStr "nope")] Library.registry
  = (Throw field_of_undefined, Library.registry) /\
  (a ← BelongsTo.new "Book" "User" [("targetKey", VStr "nope")];
   BelongsTo.injectAttributes
     Library.no_constraints Library.no_collision a) Library.registry
  = (Throw field_of_undefined, Library.registry) /\
  field_of_undefined <> Error "Missing target key".
Proof.
  split; [reflexivity|].
  destruct (unresolved_target_key_fails_at_construction
              "Book" "User" [("targetKey", VStr "nope")] Library.registry
              Library.Book Library.User (VStr "nope")
              eq_refl eq_refl eq_refl (or_introl eq_refl))
    as [Hnew Hthen]; [discriminate|].
  split; [exact Hnew|]. split; [apply Hthen|discriminate].
Qed.

(* ===================================================================== *)
(** ** Construction: what a successful constructor returns *)
(* ===================================================================== *)

(** With both models in the registry and the arity check passed, the
    constructor succeeds or fails with the resolution of the storage fields
    of the target keys, and returns [constructed]. *)
Lemma new_unfold (source target : string) (options : obj) (r : Registry) S T :
  r !! source = Some S -> r !! target = Some T ->
  BelongsTo.new source target options r =
  if BelongsTo.arity_mismatch (get_prop "foreignKey" options)
                              (get_prop "targetKey" options)
  then (Throw (Error BelongsTo.arity_message), r)
  else
    match mapM (BelongsTo.targetKeyField T)
               (BelongsTo.resolve_targetKeys (get_prop "targetKey" options) T) r
    with
    | (Ok targetKeyFields, r') =>
        (Ok (constructed source target options S T targetKeyFields), r')
    | (Throw e, r') => (Throw e, r')
    end.
Proof.
  intros HS HT. unfold BelongsTo.new.
  rewrite (bind_ok _ _ _ _ _ (resolve_alias_ok target options r T HT)).
  rewrite (get_prop_set_prop_ne "foreignKey" "name") by discriminate.
  rewrite (get_prop_set_prop_ne "targetKey" "name") by discriminate.
  destruct (BelongsTo.arity_mismatch _ _); [reflexivity|].
  unfold BelongsTo.resolve_keys. resolve_foreignKeys HS HT.
  rewrite bind_run. unfold model at 1. rewrite HS.
  rewrite bind_run. unfold model at 1. rewrite HT.
  rewrite (get_prop_set_prop_ne "foreignKey" "name") by discriminate.
  rewrite (get_prop_set_prop_ne "targetKey" "name") by discriminate.
  rewrite bind_run.
  destruct (mapM _ _ r) as [[tkf|e] r']; reflexivity.
Qed.

(** An attribute of the target is found by the property read. *)
Lemma names_attribute_resolves T (targetKey : value) :
  names_attribute T targetKey -> resolves T targetKey.
Proof.
  unfold names_attribute, resolves. intros H. now rewrite (read_prop_own _ _ H).
Qed.

Lemma targetKeyFields_ok T (l : list value) (r : Registry) :
  Forall (resolves T) l ->
  mapM (BelongsTo.targetKeyField T) l r = (Ok (targetKeyFields_of T l), r).
Proof.
  induction 1 as [|x l Hx _ IH]; simpl; [reflexivity|].
  rewrite bind_run. unfold BelongsTo.targetKeyField at 1.
  rewrite bind_run. unfold lift, member. red in Hx.
  destruct (read_prop (to_string x) (Model.rawAttributes T)) eqn:E;
    try discriminate; simpl; rewrite bind_run, IH; simpl;
    unfold targetKeyFields_of; simpl; rewrite ?E; reflexivity.
Qed.

(** Construction succeeds when the arity check passes and every target key
    resolves on the target. *)
Lemma new_ok (source target : string) (options : obj) (r : Registry) S T :
  r !! source = Some S -> r !! target = Some T ->
  BelongsTo.arity_mismatch (get_prop "foreignKey" options)
                           (get_prop "targetKey" options) = false ->
  Forall (resolves T)
         (BelongsTo.resolve_targetKeys (get_prop "targetKey" options) T) ->
  BelongsTo.new source target options r
  = (Ok (constructed source target options S T
           (targetKeyFields_of T
              (BelongsTo.resolve_targetKeys (get_prop "targetKey" options) T))),
     r).
Proof.
  intros HS HT Harity Hkeys.
  rewrite (new_unfold _ _ _ _ _ _ HS HT), Harity.
  now rewrite (targetKeyFields_ok _ _ r Hkeys).
Qed.

(** Conversely, an association that was constructed is [constructed]. *)
Lemma new_inv (source target : string) (options : obj) (r r' : Registry)
    S T (a : BelongsTo.t) :
  r !! source = Some S -> r !! target = Some T ->
  BelongsTo.new source target options r = (Ok a, r') ->
  BelongsTo.arity_mismatch (get_prop "foreignKey" options)
                           (get_prop "targetKey" options) = false /\
  exists targetKeyFields,
    a = constructed source target options S T targetKeyFields.
Proof.
  intros HS HT. rewrite (new_unfold _ _ _ _ _ _ HS HT).
  destruct (BelongsTo.arity_mismatch _ _); [discriminate|].
  destruct (mapM _ _ r) as [[tkf|e] r'']; [|discriminate].
  intros [= <- _]. eauto.
Qed.

(** The invariant of the data model: foreign keys and target keys are
    paired position by position. *)
Lemma constructed_same_length (source target : string) (options : obj) S T tkf :
  BelongsTo.arity_mismatch (get_prop "foreignKey" options)
                           (get_prop "targetKey" options) = false ->
  length (BelongsTo.foreignKeys (constructed source target options S T tkf))
  = length (BelongsTo.targetKeys (constructed source target options S T tkf)).
Proof.
  simpl. unfold BelongsTo.arity_mismatch, foreignKeys_of,
    BelongsTo.resolve_targetKeys.
  destruct (get_prop "foreignKey" options) as [| |b|n|s|p|lf|c d],
           (get_prop "targetKey" options) as [| |b'|n'|s'|p'|lt|c' d'];
    simpl; try discriminate; try reflexivity;
    try (destruct b; reflexivity);
    try (destruct (negb (Z.eqb n 0)); reflexivity);
    try (destruct (negb (String.eqb s EmptyString)); reflexivity).
  rewrite length_map. intros H. apply negb_false_iff in H.
  now apply Nat.eqb_eq in H.
Qed.

(* ===================================================================== *)
(** ** Construction: the default foreign-key name *)
(* ===================================================================== *)

(** C6, as amended.  With no [foreignKey] supplied and a single target key
    that names an attribute of the target, construction succeeds with one
    foreign key, named after the alias and the primary key of the target
    joined by an underscore.  The join is camel-cased only when the source
    does not follow the underscored convention; when it does, the alias is
    underscored and the join is kept as it is. *)
Theorem default_foreign_key_name
    (source target : string) (options : obj) (r : Registry) (S T : Model.t) :
  r !! source = Some S ->
  r !! target = Some T ->
  truthy (get_prop "foreignKey" options) = false ->
  isArray (get_prop "targetKey" options) = false ->
  names_attribute T (js_or (get_prop "targetKey" options)
                           (Model.primaryKeyAttribute T)) ->
  exists a,
    BelongsTo.new source target options r = (Ok a, r) /\
    BelongsTo.foreignKeys a =
    [VObj [("name",
            VStr (if Model.underscored (Model.options S)
                  then join "_" [VStr (Utils.underscore
                                         (to_string (alias_of options T)));
                                 Model.primaryKeyAttribute T]
                  else Utils.camelize
                         (join "_" [alias_of options T;
                                    Model.primaryKeyAttribute T])))]].
Proof.
  intros HS HT Hfk Htk Hattr.
  assert (Harity : BelongsTo.arity_mismatch (get_prop "foreignKey" options)
                     (get_prop "targetKey" options) = false).
  { unfold BelongsTo.arity_mismatch. rewrite Htk.
    destruct (get_prop "foreignKey" options); try discriminate; reflexivity. }
  assert (Hkeys : Forall (resolves T)
            (BelongsTo.resolve_targetKeys (get_prop "targetKey" options) T)).
  { apply names_attribute_resolves in Hattr.
    unfold BelongsTo.resolve_targetKeys.
    destruct (get_prop "targetKey" options); try discriminate;
      repeat constructor; exact Hattr. }
  eexists. split; [apply (new_ok _ _ _ _ _ _ HS HT Harity Hkeys)|].
  simpl. unfold foreignKeys_of, default_name, Utils.camelizeIf,
    Utils.underscoredIf.
  destruct (get_prop "foreignKey" options); try discriminate; simpl in *;
    try rewrite Hfk; destruct (Model.underscored (Model.options S));
    reflexivity.
Qed.

(** Alias ["Author"], target primary key ["id"], source not underscored:
    the default foreign key is ["AuthorId"]. *)
Lemma default_foreign_key_name_witness :
  exists a,
    BelongsTo.new "Book" "User" [("as", VStr "Author")] Library.registry
    = (Ok a, Library.registry) /\
    BelongsTo.foreignKeys a = [VObj [("name", VStr "AuthorId")]].
Proof.
  exact (default_foreign_key_name "Book" "User" [("as", VStr "Author")]
           Library.registry Library.Book Library.User
           eq_refl eq_refl eq_refl eq_refl eq_refl).
Defined.

(** C6, as stated, fails for a source that follows the underscored
    convention: [Post.belongsTo(User, { as: 'Author' })] names its foreign
    key ["author_id"], which is not the camel-cased join ["authorId"]. *)
Lemma default_foreign_key_name_counterexample :
  Model.underscored (Model.options Library.Post) = true /\
  (exists a,
     BelongsTo.new "Post" "User" [("as", VStr "Author")] Library.registry
     = (Ok a, Library.registry) /\
     BelongsTo.foreignKeys a = [VObj [("name", VStr "author_id")]]) /\
  Utils.camelize
    (join "_" [Utils.underscoredIf (VStr "Author") true; VStr "id"])
  = "authorId".
Proof.
  split; [reflexivity|]. split; [|reflexivity].
  eexists. split; [vm_compute; reflexivity|reflexivity].
Qed.

(* ===================================================================== *)
(** ** The single primary target key and the lookup by primary key *)
(* ===================================================================== *)

Lemma run_call_return (w : World) (c : call) :
  run w (Call c Return) = (w c, [c]).
Proof. simpl. destruct (w c); reflexivity. Qed.

Lemma singlePrimaryTargetKey_spec (T : Model.t) (fks tks : list value) :
  ((exists tk, tks = [tk] /\
               strict_eq tk (Model.primaryKeyAttribute T) = true) ->
   BelongsTo.resolve_singlePrimaryTargetKey T fks tks
   = get_member (nth 0 fks VUndefined) "name") /\
  (~ (exists tk, tks = [tk] /\
                 strict_eq tk (Model.primaryKeyAttribute T) = true) ->
   BelongsTo.resolve_singlePrimaryTargetKey T fks tks = VNull).
Proof.
  unfold BelongsTo.resolve_singlePrimaryTargetKey. split.
  - intros (tk & -> & Heq). simpl. now rewrite Heq.
  - intros Hnot. destruct tks as [|tk [|tk' tks]]; simpl; try reflexivity.
    destruct (strict_eq tk (Model.primaryKeyAttribute T)) eqn:E;
      [|reflexivity].
    exfalso. apply Hnot. eauto.
Qed.

(** C7, as amended.  For a constructed relationship with exactly one key
    pair whose target key is the primary key of the target,
    [singlePrimaryTargetKey] is the name of the sole foreign key, and it is
    [null] for every other relationship.  When that name is truthy (a
    non-empty string), [get] on a single instance with no [where] among the
    options issues one call, the lookup by primary key of the instance's
    value for that foreign key, with the options as they were given: no
    filter is built. *)
Theorem single_primary_target_key
    (source target : string) (options : obj) (r r' : Registry)
    (S T : Model.t) (a : BelongsTo.t) :
  r !! source = Some S ->
  r !! target = Some T ->
  BelongsTo.new source target options r = (Ok a, r') ->
  (one_primary_pair a T ->
   length (BelongsTo.foreignKeys a) = 1%nat /\
   BelongsTo.singlePrimaryTargetKey a
   = get_member (nth 0 (BelongsTo.foreignKeys a) VUndefined) "name") /\
  (~ one_primary_pair a T -> BelongsTo.singlePrimaryTargetKey a = VNull) /\
  (one_primary_pair a T ->
   truthy (get_member (nth 0 (BelongsTo.foreignKeys a) VUndefined) "name")
   = true ->
   forall (instance : Instance.t) (options' : obj) (w : World),
     truthy (get_prop "where" options') = false ->
     let lookup :=
       FindById (BelongsTo.resolve_target a options')
                (Instance.get instance
                   (get_member (nth 0 (BelongsTo.foreignKeys a) VUndefined)
                               "name"))
                options' in
     run w (BelongsTo.get a (inl instance) options') = (w lookup, [lookup])).
Proof.
  intros HS HT Hnew.
  destruct (new_inv _ _ _ _ _ _ _ _ HS HT Hnew) as (Harity & tkf & ->).
  pose proof (constructed_same_length source target options S T tkf Harity)
    as Hlen.
  pose proof (singlePrimaryTargetKey_spec T
                (BelongsTo.foreignKeys (constructed source target options S T tkf))
                (BelongsTo.targetKeys (constructed source target options S T tkf)))
    as [Hone Hnone].
  split; [|split].
  - intros Hpair. split; [|exact (Hone Hpair)].
    destruct Hpair as (tk & Htk & _). rewrite Hlen, Htk. reflexivity.
  - exact Hnone.
  - intros Hpair Hname instance options' w Hwhere lookup.
    unfold BelongsTo.get, Utils.cloneDeep.
    change (BelongsTo.singlePrimaryTargetKey
              (constructed source target options S T tkf))
      with (BelongsTo.resolve_singlePrimaryTargetKey T
              (BelongsTo.foreignKeys (constructed source target options S T tkf))
              (BelongsTo.targetKeys (constructed source target options S T tkf))).
    rewrite (Hone Hpair), Hname, Hwhere. simpl andb. cbv iota.
    apply run_call_return.
Qed.

(** [Book.belongsTo(User, { as: 'Author' })]: the key is ["AuthorId"], and
    [getAuthor()] on book 10 looks user 1 up by primary key. *)
Lemma single_primary_target_key_witness :
  BelongsTo.singlePrimaryTargetKey Library.author = VStr "AuthorId" /\
  run Library.world (BelongsTo.get Library.author (inl (Library.book 10 1)) [])
  = (Ok (Library.user 1), [FindById (Target.model "User") (VNum 1) []]).
Proof.
  assert (Hpair : one_primary_pair Library.author Library.User).
  { exists (VStr "id"). split; reflexivity. }
  destruct (single_primary_target_key "Book" "User" [("as", VStr "Author")]
              Library.registry Library.registry Library.Book Library.User
              Library.author eq_refl eq_refl eq_refl)
    as (Hkey & _ & Hget).
  split.
  - exact (proj2 (Hkey Hpair)).
  - exact (Hget Hpair eq_refl (Library.book 10 1) [] Library.world eq_refl).
Defined.

(** C7, as stated, fails when the sole foreign key has an empty name:
    [Book.belongsTo(User, { foreignKey: [''], targetKey: ['id'] })] has one
    key pair whose target key is the primary key, and [get] on a single
    instance with no [where] issues the generic single-row query over a
    filter, not the lookup by primary key. *)
Lemma single_primary_target_key_counterexample :
  exists a,
    BelongsTo.new "Book" "User"
      [("foreignKey", VArr [VStr EmptyString]); ("targetKey", VArr [VStr "id"])]
      Library.registry = (Ok a, Library.registry) /\
    one_primary_pair a Library.User /\
    BelongsTo.foreignKeys a = [VObj [("name", VStr EmptyString)]] /\
    run Library.world (BelongsTo.get a (inl (Library.book 10 1)) [])
    = (Ok (Library.user 1),
       [FindOne (Target.model "User")
                [("limit", VNull); ("where", VObj [("id", VUndefined)])]]).
Proof.
  eexists. split; [vm_compute; reflexivity|].
  split; [exists (VStr "id"); split; reflexivity|].
  split; reflexivity.
Qed.

(** [Library.author] is what the constructor returns for
    [Book.belongsTo(User, { as: 'Author' })]. *)
Lemma author_constructed :
  BelongsTo.new "Book" "User" [("as", VStr "Author")] Library.registry
  = (Ok Library.author, Library.registry).
Proof. reflexivity. Qed.

(* ===================================================================== *)
(** ** identifierFields *)
(* ===================================================================== *)

(** Lines 77-79 look each identifier up in the attribute registry of the
    source as it is, a descriptor object, not by its name: the key is the
    string form of the object.  Unless the source has an attribute of that
    name, no identifier passes the filter. *)
Lemma identifierFields_of_descriptors (S : Model.t) (identifiers : list value) :
  Forall (fun identifier => exists props, identifier = VObj props) identifiers ->
  truthy (get_prop "[object Object]" (Model.rawAttributes S)) = false ->
  BelongsTo.resolve_identifierFields S identifiers = [].
Proof.
  intros Hplain Hnone. unfold BelongsTo.resolve_identifierFields.
  induction Hplain as [|x l [props ->] _ IH]; simpl; [reflexivity|].
  rewrite (read_prop_not_inherited "[object Object]") by reflexivity.
  rewrite Hnone. exact IH.
Qed.

(** C9, evaluated where it fails.  [Book] declares the attribute
    [AuthorId] with the storage field [author_id], and
    [Book.belongsTo(User, { as: 'Author' })] resolves its foreign key to
    that name; [identifierFields] is nevertheless empty, where the claim
    has [author_id] in it. *)
Theorem identifierFields_of_declared_key :
  get_prop "AuthorId" (Model.rawAttributes Library.Book)
  = VObj [("type", VStr "BIGINT"); ("field", VStr "author_id")] /\
  exists a,
    BelongsTo.new "Book" "User" [("as", VStr "Author")] Library.registry
    = (Ok a, Library.registry) /\
    BelongsTo.foreignKeys a = [VObj [("name", VStr "AuthorId")]] /\
    BelongsTo.identifierFields a = [].
Proof.
  split; [reflexivity|]. exists Library.author.
  split; [reflexivity|]. split; reflexivity.
Qed.

(* ===================================================================== *)
(** ** get in batch mode *)
(* ===================================================================== *)

(** The filter loop throws only on a foreign key that is [undefined] or
    [null]. *)
Lemma where_each_ok (a : BelongsTo.t) (condition : value -> value)
    (l : list value) (index : nat) (where_ : obj) :
  Forall (fun foreignKey => is_nullish foreignKey = false) l ->
  exists where', BelongsTo.where_each a condition l index where_ = Ok where'.
Proof.
  intros Hl. revert index where_.
  induction Hl as [|x l Hx _ IH]; intros index where_; simpl; [eauto|].
  destruct x; try discriminate; simpl; apply IH.
Qed.

(** Batch mode issues one query, a [findAll] on the target, whatever the
    number of instances and whatever the query answers. *)
Lemma batch_get_single_query (a : BelongsTo.t) (instances : list Instance.t)
    (options : obj) (w : World) :
  Forall (fun foreignKey => is_nullish foreignKey = false)
         (BelongsTo.foreignKeys a) ->
  exists where_,
    BelongsTo.where_each a
      (fun name =>
         VObj [(Op.in_,
                VArr (map (fun instance => Instance.get instance name)
                          instances))])
      (BelongsTo.foreignKeys a) 0 [] = Ok where_ /\
    snd (run w (BelongsTo.get a (inr instances) options))
    = [FindAll (BelongsTo.resolve_target a options)
               (BelongsTo.and_where where_ options)].
Proof.
  intros Hfk.
  destruct (where_each_ok a
              (fun name =>
                 VObj [(Op.in_,
                        VArr (map (fun instance => Instance.get instance name)
                                  instances))])
              (BelongsTo.foreignKeys a) 0 [] Hfk) as [where_ Hwhere].
  exists where_. split; [exact Hwhere|].
  unfold BelongsTo.get, Utils.cloneDeep. rewrite Hwhere. simpl.
  destruct (w _) as [results|e]; [|reflexivity].
  destruct (BelongsTo.batch_result a instances results); reflexivity.
Qed.

(** C1, evaluated where it fails.  Books 10 and 11 refer to the users 1
    and 7; the one query asks for the users whose [id] is in [1, 7] and is
    answered with the users 1 and 2.  The mapping returned has the single
    key ["undefined"]: there is no entry for the foreign-key value 1, whose
    user was found, nor a [null] entry for 7. *)
Theorem batch_get_mapping :
  BelongsTo.new "Book" "User" [("as", VStr "Author")] Library.registry
  = (Ok Library.author, Library.registry) /\
  run Library.world
      (BelongsTo.get Library.author
         (inr [Library.book 10 1; Library.book 11 7]) [])
  = (Ok (VObj [("undefined", Library.user 2)]),
     [FindAll (Target.model "User")
        [("where",
          VObj [("id", VObj [(Op.in_, VArr [VNum 1; VNum 7])])])]]) /\
  has_prop "1" [("undefined", Library.user 2)] = false /\
  has_prop "7" [("undefined", Library.user 2)] = false.
Proof.
  split; [exact author_constructed|].
  split; [reflexivity|]. split; reflexivity.
Qed.

(* ===================================================================== *)
(** ** set *)
(* ===================================================================== *)

(** With [options.save === false] no call is issued. *)
Lemma set_without_save_issues_no_call (a : BelongsTo.t)
    (sourceInstance : Instance.t) (associatedInstance options : value)
    (w : World) :
  strict_eq (get_member (js_or options (VObj [])) "save") (VBool false) = true ->
  snd (run w (BelongsTo.set a sourceInstance associatedInstance options)) = [].
Proof.
  intros H. unfold BelongsTo.set, BelongsTo.set_on, BelongsTo.assign.
  cbv beta iota zeta. now rewrite H.
Qed.

(** C8, evaluated where it fails.  Book 10 refers to user 7;
    [setAuthor(null, { save: false })] issues no call, as claimed, but the
    in-memory assignment goes to the attribute named ["undefined"]: the
    foreign-key attribute [AuthorId] still holds 7, not [null]. *)
Theorem set_null_without_save :
  BelongsTo.new "Book" "User" [("as", VStr "Author")] Library.registry
  = (Ok Library.author, Library.registry) /\
  run Library.world
      (BelongsTo.set Library.author (Library.book 10 7) VNull
         (VObj [("save", VBool false)]))
  = (Ok ({| Instance.class_of := ModelClass "Book";
            Instance.dataValues := [("id", VNum 10); ("AuthorId", VNum 7);
                                    ("undefined", VNull)] |},
         VUndefined),
     []) /\
  BelongsTo.foreignKeys Library.author = [VObj [("name", VStr "AuthorId")]] /\
  Instance.get
    {| Instance.class_of := ModelClass "Book";
       Instance.dataValues := [("id", VNum 10); ("AuthorId", VNum 7);
                               ("undefined", VNull)] |}
    (VStr "AuthorId") = VNum 7.
Proof.
  split; [exact author_constructed|].
  split; [reflexivity|]. split; reflexivity.
Qed.





(* ===================================================================== *)
(** ** create *)
(* ===================================================================== *)

(** The options handed to the setter never ask to skip the save. *)
Lemma link_options_save (fieldsOrOptions : value) :
  get_prop "save" (BelongsTo.link_options fieldsOrOptions) = VUndefined.
Proof.
  unfold BelongsTo.link_options.
  rewrite get_prop_set_prop_ne by discriminate.
  destruct (get_member (js_or fieldsOrOptions (VObj [])) "transaction");
    try reflexivity.
  destruct c; reflexivity.
Qed.




(* ===================================================================== *)
(** ** injectAttributes *)
(* ===================================================================== *)

Lemma leaves_reader {A : Type} (m : M A) : reader m -> leaves m.
Proof. intros H r. apply H. Qed.

Lemma leaves_throw {A : Type} (e : error) : leaves (@throw A e).
Proof. intros r. reflexivity. Qed.

Lemma leaves_bind {A B : Type} (m : M A) (f : A -> M B) :
  leaves m -> (forall a, leaves (f a)) -> leaves (m ≫= f).
Proof.
  intros Hm Hf r. rewrite bind_run. specialize (Hm r).
  destruct (m r) as [[a|e] r']; simpl in *; subst r'; [apply Hf|reflexivity].
Qed.

(** Default-merge: the destination comes back as a prefix, and what follows
    it are names the destination did not have. *)
Lemma mergeDefaults_extends (a b : obj) :
  exists added,
    Utils.mergeDefaults a b = (a ++ added)%list /\
    forall k, In k (map fst added) -> has_prop k a = false.
Proof.
  unfold Utils.mergeDefaults.
  assert (H : forall acc added,
             acc = (a ++ added)%list ->
             (forall k, In k (map fst added) -> has_prop k a = false) ->
             exists added',
               fold_left
                 (fun acc kv => if has_prop (fst kv) acc then acc
                                else set_prop (fst kv) (snd kv) acc) b acc
               = (a ++ added')%list /\
               forall k, In k (map fst added') -> has_prop k a = false).
  { induction b as [|[k v] b IH]; intros acc added Hacc Hadded; simpl.
    - exists added. split; assumption.
    - destruct (has_prop k acc) eqn:E.
      + apply (IH acc added); assumption.
      + apply (IH _ (added ++ [(k, v)])%list).
        * rewrite (set_prop_absent _ _ _ E), Hacc. now rewrite <- app_assoc.
        * intros k'. rewrite map_app, in_app_iff. simpl.
          intros [Hin|[<-|[]]]; [now apply Hadded|].
          rewrite Hacc, has_prop_app in E.
          now apply orb_false_iff in E. }
  apply (H a []); [now rewrite app_nil_r|contradiction].
Qed.

Section InjectionProperties.

Variable addForeignKeyConstraints :
  obj -> Model.t -> Model.t -> obj -> value -> obj.
Variable checkNamingCollision : BelongsTo.t -> Registry -> option error.

Lemma leaves_inject_one a newAttributes foreignKey index :
  leaves (BelongsTo.inject_one addForeignKeyConstraints a newAttributes
            foreignKey index).
Proof.
  unfold BelongsTo.inject_one.
  destruct (negb _); [apply leaves_throw|].
  apply leaves_reader. reader.
Qed.

Lemma leaves_inject_each a l index newAttributes :
  leaves (BelongsTo.inject_each addForeignKeyConstraints a l index
            newAttributes).
Proof.
  revert index newAttributes.
  induction l as [|x l IH]; intros index newAttributes; simpl.
  - apply leaves_reader, reader_ret.
  - apply leaves_bind; [apply leaves_inject_one|]. intros acc. apply IH.
Qed.

(** The "Missing target key" error of line 118 is thrown when the name
    paired with a foreign key is falsy, whether or not the target has an
    attribute of that name. *)
Lemma inject_one_missing_target_key a newAttributes foreignKey index
    (r : Registry) :
  truthy (nth index (BelongsTo.targetKeys a) VUndefined) = false ->
  BelongsTo.inject_one addForeignKeyConstraints a newAttributes
    foreignKey index r
  = (Throw (Error "Missing target key"), r).
Proof. intros H. unfold BelongsTo.inject_one. now rewrite H. Qed.

(** The registry after [injectAttributes]: untouched when the loop over
    the foreign keys throws, and otherwise the source with the candidates
    merged in, whether or not the collision check then throws. *)
Lemma injectAttributes_registry (a : BelongsTo.t) (r : Registry) S :
  r !! BelongsTo.source a = Some S ->
  snd (BelongsTo.injectAttributes addForeignKeyConstraints
         checkNamingCollision a r) = r \/
  exists newAttributes,
    snd (BelongsTo.injectAttributes addForeignKeyConstraints
           checkNamingCollision a r)
    = alter (Model.with_rawAttributes
               (Utils.mergeDefaults (Model.rawAttributes S) newAttributes))
            (BelongsTo.source a) r.
Proof.
  intros HS. unfold BelongsTo.injectAttributes. rewrite bind_run.
  pose proof (leaves_inject_each a (BelongsTo.foreignKeys a) 0 [] r) as Hl.
  destruct (BelongsTo.inject_each _ _ _ _ _ r) as [[newAttributes|e] r'];
    simpl in Hl; subst r'; [|left; reflexivity].
  right. exists newAttributes.
  rewrite bind_run. unfold model at 1. rewrite HS.
  rewrite bind_run. unfold put_rawAttributes at 1.
  rewrite bind_run. unfold BelongsTo.refreshAttributes at 1.
  unfold mret at 1, M_ret at 1.
  rewrite bind_run. unfold BelongsTo.check_collision at 1.
  match goal with
  | |- context [checkNamingCollision a ?x] =>
      destruct (checkNamingCollision a x)
  end; reflexivity.
Qed.

End InjectionProperties.

(** C5.  Whatever the collaborators do and however [injectAttributes]
    ends, the attribute registry of the source afterwards is the registry
    before followed by added attributes, each under a name the source did
    not have: an attribute the source already defines keeps its
    definition. *)
Theorem injection_keeps_defined_attributes
    (addForeignKeyConstraints : obj -> Model.t -> Model.t -> obj -> value -> obj)
    (checkNamingCollision : BelongsTo.t -> Registry -> option error)
    (a : BelongsTo.t) (r : Registry) (S : Model.t) :
  r !! BelongsTo.source a = Some S ->
  exists (S' : Model.t) (added : obj),
    snd (BelongsTo.injectAttributes addForeignKeyConstraints
           checkNamingCollision a r) !! BelongsTo.source a = Some S' /\
    Model.rawAttributes S' = (Model.rawAttributes S ++ added)%list /\
    (forall k, In k (map fst added) ->
               has_prop k (Model.rawAttributes S) = false) /\
    (forall k, has_prop k (Model.rawAttributes S) = true ->
               get_prop k (Model.rawAttributes S')
               = get_prop k (Model.rawAttributes S)).
Proof.
  intros HS.
  destruct (injectAttributes_registry addForeignKeyConstraints
              checkNamingCollision a r S HS) as [-> | [newAttributes ->]].
  - exists S, []. rewrite app_nil_r.
    repeat split; [exact HS|contradiction].
  - destruct (mergeDefaults_extends (Model.rawAttributes S) newAttributes)
      as (added & Hmerge & Habsent).
    exists (Model.with_rawAttributes
              (Utils.mergeDefaults (Model.rawAttributes S) newAttributes) S),
           added.
    split; [|split; [|split]].
    + rewrite lookup_alter_eq, HS. reflexivity.
    + exact Hmerge.
    + exact Habsent.
    + intros k Hk. simpl. rewrite Hmerge. now apply get_prop_app_present.
Qed.

(** [Book] defines [AuthorId] itself, as a [BIGINT] stored in [author_id];
    injecting the attributes of [Book.belongsTo(User, { as: 'Author' })]
    leaves that definition in place. *)
Lemma injection_keeps_defined_attributes_witness :
  exists S',
    snd (BelongsTo.injectAttributes Library.no_constraints
           Library.no_collision Library.author Library.registry) !! "Book"
    = Some S' /\
    get_prop "AuthorId" (Model.rawAttributes S')
    = VObj [("type", VStr "BIGINT"); ("field", VStr "author_id")].
Proof.
  destruct (injection_keeps_defined_attributes Library.no_constraints
              Library.no_collision Library.author Library.registry
              Library.Book eq_refl)
    as (S' & added & Hlookup & _ & _ & Hkeep).
  exists S'. split; [exact Hlookup|]. exact (Hkeep "AuthorId" eq_refl).
Defined.

(** A name the source does not have is added:
    [Book.belongsTo(User, { as: 'Writer' })] injects [WriterId]. *)
Example injection_adds_absent_name :
  exists a r S',
    (a ← BelongsTo.new "Book" "User" [("as", VStr "Writer")];
     BelongsTo.injectAttributes Library.no_constraints Library.no_collision a)
      Library.registry
    = (Ok a, r) /\
    r !! "Book" = Some S' /\
    Model.rawAttributes S'
    = (Model.rawAttributes Library.Book
       ++ [("WriterId", VObj [("name", VStr "WriterId");
                              ("type", VStr "INTEGER");
                              ("allowNull", VBool true)])])%list.
Proof.
  do 3 eexists. split; [vm_compute; reflexivity|].
  split; [vm_compute; reflexivity|reflexivity].
Qed.

(* ===================================================================== *)
(** ** Further properties of the constructor *)
(* ===================================================================== *)

Lemma mapM_length {A B : Type} (f : A -> M B) (l : list A) (r r' : Registry)
    (ys : list B) :
  mapM f l r = (Ok ys, r') -> length ys = length l.
Proof.
  revert r r' ys. induction l as [|x l IH]; intros r r' ys; simpl.
  - intros [= <- _]. reflexivity.
  - rewrite bind_run. destruct (f x r) as [[y|e] r1]; [|discriminate].
    rewrite bind_run.
    destruct (mapM f l r1) as [[ys'|e] r2] eqn:E; [|discriminate].
    intros [= <- _]. simpl. f_equal. exact (IH _ _ _ E).
Qed.

(** What [new_inv] says, with the resolution of the storage fields kept. *)
Lemma new_inv_fields (source target : string) (options : obj)
    (r r' : Registry) S T (a : BelongsTo.t) :
  r !! source = Some S -> r !! target = Some T ->
  BelongsTo.new source target options r = (Ok a, r') ->
  BelongsTo.arity_mismatch (get_prop "foreignKey" options)
                           (get_prop "targetKey" options) = false /\
  exists targetKeyFields,
    mapM (BelongsTo.targetKeyField T)
         (BelongsTo.resolve_targetKeys (get_prop "targetKey" options) T) r
    = (Ok targetKeyFields, r') /\
    a = constructed source target options S T targetKeyFields.
Proof.
  intros HS HT. rewrite (new_unfold _ _ _ _ _ _ HS HT).
  destruct (BelongsTo.arity_mismatch _ _); [discriminate|].
  destruct (mapM _ _ r) as [[tkf|e] r'']; [|discriminate].
  intros [= <- <-]. eauto.
Qed.

(** X1.  Every association the constructor returns keeps the pairing of
    the data model: as many foreign keys as target keys, one storage field
    per target key, and the identifiers are the foreign keys. *)
Theorem constructed_keys_paired
    (source target : string) (options : obj) (r r' : Registry)
    (S T : Model.t) (a : BelongsTo.t) :
  r !! source = Some S ->
  r !! target = Some T ->
  BelongsTo.new source target options r = (Ok a, r') ->
  length (BelongsTo.foreignKeys a) = length (BelongsTo.targetKeys a) /\
  length (BelongsTo.targetKeyFields a) = length (BelongsTo.targetKeys a) /\
  BelongsTo.identifiers a = BelongsTo.foreignKeys a.
Proof.
  intros HS HT Hnew.
  destruct (new_inv_fields _ _ _ _ _ _ _ _ HS HT Hnew)
    as (Harity & tkf & Hfields & ->).
  split; [|split].
  - now apply constructed_same_length.
  - simpl. exact (mapM_length _ _ _ _ _ Hfields).
  - reflexivity.
Qed.

(** The composite configuration
    [foreignKey: [{name: 'tenantId'}, {name: 'userId'}],
     targetKey: ['id', 'email']] has two key pairs. *)
Lemma constructed_keys_paired_witness :
  exists a,
    BelongsTo.new "Book" "User"
      [("foreignKey", VArr [VObj [("name", VStr "tenantId")];
                            VObj [("name", VStr "userId")]]);
       ("targetKey", VArr [VStr "id"; VStr "email"])]
      Library.registry = (Ok a, Library.registry) /\
    length (BelongsTo.foreignKeys a) = 2%nat /\
    length (BelongsTo.targetKeyFields a) = 2%nat.
Proof.
  eexists. split; [vm_compute; reflexivity|].
  match goal with
  | |- length (BelongsTo.foreignKeys ?a) = _ /\ _ =>
      destruct (constructed_keys_paired "Book" "User"
                  [("foreignKey", VArr [VObj [("name", VStr "tenantId")];
                                        VObj [("name", VStr "userId")]]);
                   ("targetKey", VArr [VStr "id"; VStr "email"])]
                  Library.registry Library.registry Library.Book Library.User
                  a eq_refl eq_refl eq_refl)
        as (Hfk & Htkf & _)
  end.
  split; [exact Hfk|exact Htkf].
Defined.

(** X3.  A [foreignKey] option that is a truthy scalar (a string, usually)
    becomes the one descriptor [{name: foreignKey}]: the default name plays
    no part. *)
Theorem scalar_foreign_key
    (source target : string) (options : obj) (r r' : Registry)
    (S T : Model.t) (a : BelongsTo.t) :
  r !! source = Some S ->
  r !! target = Some T ->
  BelongsTo.new source target options r = (Ok a, r') ->
  isObject (get_prop "foreignKey" options) = false ->
  truthy (get_prop "foreignKey" options) = true ->
  BelongsTo.foreignKeys a = [VObj [("name", get_prop "foreignKey" options)]].
Proof.
  intros HS HT Hnew Hobj Htruthy.
  destruct (new_inv _ _ _ _ _ _ _ _ HS HT Hnew) as (_ & tkf & ->).
  simpl. unfold foreignKeys_of.
  destruct (get_prop "foreignKey" options); try discriminate;
    simpl in *; rewrite ?Htruthy; reflexivity.
Qed.

Lemma scalar_foreign_key_witness :
  exists a,
    BelongsTo.new "Book" "User" [("foreignKey", VStr "writer_id")]
      Library.registry = (Ok a, Library.registry) /\
    BelongsTo.foreignKeys a = [VObj [("name", VStr "writer_id")]].
Proof.
  eexists. split; [vm_compute; reflexivity|].
  match goal with
  | |- BelongsTo.foreignKeys ?a = _ =>
      exact (scalar_foreign_key "Book" "User" [("foreignKey", VStr "writer_id")]
               Library.registry Library.registry Library.Book Library.User
               a eq_refl eq_refl eq_refl eq_refl eq_refl)
  end.
Defined.

(** [_.defaults] from one source with distinct property names: a property
    is taken from the source exactly where the destination has none. *)
Lemma defaults1_lookup (k : string) (src dest : obj) :
  NoDup (map fst src) ->
  get_prop k
    (fold_left
       (fun d kv => if is_undefined (get_prop (fst kv) d)
                    then set_prop (fst kv) (snd kv) d else d)
       src dest)
  = if is_undefined (get_prop k dest) then get_prop k src
    else get_prop k dest.
Proof.
  intros Hnd. revert dest.
  induction src as [|[k0 v0] src IH]; intros dest; simpl.
  - now destruct (get_prop k dest).
  - inversion Hnd as [|? ? Hnotin Hnd']; subst. rewrite (IH Hnd').
    destruct (String.eqb k k0) eqn:E.
    + apply String.eqb_eq in E. subst k0.
      assert (Hrest : get_prop k src = VUndefined).
      { apply has_prop_false_get_prop.
        destruct (has_prop k src) eqn:Hhas; [|reflexivity].
        apply has_prop_In, list_elem_of_In in Hhas. contradiction. }
      destruct (is_undefined (get_prop k dest)) eqn:Hd.
      * rewrite get_prop_set_prop_eq, Hrest. now destruct v0.
      * now rewrite Hd.
    + apply String.eqb_neq in E.
      destruct (is_undefined (get_prop k0 dest));
        [now rewrite get_prop_set_prop_ne|reflexivity].
Qed.

(** The descriptor that lines 57-58 build from a descriptor object and a
    name. *)
Lemma named_descriptor_lookup (k : string) (props : obj) (name : value) :
  NoDup (map fst props) ->
  get_prop k (defaults [] [VObj props; VObj [("name", name)]])
  = if is_undefined (get_prop k props) then get_prop k [("name", name)]
    else get_prop k props.
Proof.
  intros Hnd. unfold defaults. cbn [fold_left]. unfold defaults1.
  cbn [own_props].
  rewrite (defaults1_lookup k [("name", name)] _ (NoDup_singleton "name")).
  rewrite (defaults1_lookup k props [] Hnd). reflexivity.
Qed.

(** X4.  A [foreignKey] option that is a descriptor object is kept field by
    field, and named: by its own [name] whenever it has one, be it [null]
    or the empty string, and by the default name only when its [name] is
    [undefined]. *)
Theorem descriptor_foreign_key
    (source target : string) (options : obj) (r r' : Registry)
    (S T : Model.t) (a : BelongsTo.t) (props : obj) :
  r !! source = Some S ->
  r !! target = Some T ->
  BelongsTo.new source target options r = (Ok a, r') ->
  get_prop "foreignKey" options = VObj props ->
  NoDup (map fst props) ->
  exists descriptor,
    BelongsTo.foreignKeys a = [VObj descriptor] /\
    get_prop "name" descriptor
    = (if is_undefined (get_prop "name" props)
       then VStr (default_name (alias_of options T) S T)
       else get_prop "name" props) /\
    forall k, k <> "name" -> get_prop k descriptor = get_prop k props.
Proof.
  intros HS HT Hnew Hfk Hnd.
  destruct (new_inv _ _ _ _ _ _ _ _ HS HT Hnew) as (_ & tkf & ->).
  change (BelongsTo.foreignKeys (constructed source target options S T tkf))
    with (foreignKeys_of (alias_of options T) S T
            (get_prop "foreignKey" options)).
  rewrite Hfk. unfold foreignKeys_of. cbn [isObject].
  eexists. split; [reflexivity|]. split.
  - rewrite (named_descriptor_lookup _ _ _ Hnd). unfold get_member.
    cbn [own_props].
    destruct (get_prop "name" props); reflexivity.
  - intros k Hk. rewrite (named_descriptor_lookup _ _ _ Hnd).
    destruct (is_undefined (get_prop k props)) eqn:E; [|reflexivity].
    cbn [get_prop]. apply String.eqb_neq in Hk. rewrite Hk.
    now destruct (get_prop k props).
Qed.

(** [foreignKey: {name: null, allowNull: false}] keeps both fields: the
    foreign key is named [null], not by the default name. *)
Lemma descriptor_foreign_key_witness :
  exists a descriptor,
    BelongsTo.new "Book" "User"
      [("foreignKey", VObj [("name", VNull); ("allowNull", VBool false)])]
      Library.registry = (Ok a, Library.registry) /\
    BelongsTo.foreignKeys a = [VObj descriptor] /\
    get_prop "name" descriptor = VNull /\
    get_prop "allowNull" descriptor = VBool false.
Proof.
  eexists.
  assert (Hnd : NoDup (map fst [("name", VNull); ("allowNull", VBool false)])).
  { apply NoDup_cons_2; [|apply NoDup_singleton].
    intros H. apply list_elem_of_In in H. simpl in H.
    destruct H as [H|[]]. discriminate. }
  match goal with
  | |- exists d, BelongsTo.new ?s ?t ?o ?r = (Ok ?a, _) /\ _ =>
      assert (Hnew : BelongsTo.new s t o r = (Ok a, r))
        by (vm_compute; reflexivity);
      destruct (descriptor_foreign_key s t o r r Library.Book Library.User a
                  [("name", VNull); ("allowNull", VBool false)]
                  eq_refl eq_refl Hnew eq_refl Hnd)
        as (descriptor & Hfk & Hname & Hrest)
  end.
  exists descriptor. split; [exact Hnew|]. split; [exact Hfk|].
  split; [exact Hname|]. apply (Hrest "allowNull"). discriminate.
Defined.

(** X5.  The accessor names are built from the alias of the association:
    [get], [set] and [create] followed by [this.as] with its first letter
    in upper case, whatever [name] the options came with. *)
Theorem accessors_from_alias
    (source target : string) (options : obj) (r r' : Registry)
    (S T : Model.t) (a : BelongsTo.t) :
  r !! source = Some S ->
  r !! target = Some T ->
  BelongsTo.new source target options r = (Ok a, r') ->
  BelongsTo.as_ a
  = (if truthy (get_prop "as" options) then get_prop "as" options
     else VStr (Model.singular (Model.name (Model.options T)))) /\
  BelongsTo.isAliased a = truthy (get_prop "as" options) /\
  BelongsTo.associationAccessor a = BelongsTo.as_ a /\
  forall method,
    get_prop method (BelongsTo.accessors a)
    = if has_prop method [("get", VNull); ("set", VNull); ("create", VNull)]
      then VStr (method +:+
                 Utils.uppercaseFirst (to_string (BelongsTo.as_ a)))
      else VUndefined.
Proof.
  intros HS HT Hnew.
  destruct (new_inv _ _ _ _ _ _ _ _ HS HT Hnew) as (_ & tkf & ->).
  split; [reflexivity|]. split; [reflexivity|]. split; [reflexivity|].
  intros method. simpl BelongsTo.accessors. simpl BelongsTo.as_.
  rewrite (get_prop_set_prop_ne "name" "useHooks") by discriminate.
  rewrite get_prop_set_prop_eq.
  assert (Hsingular :
    get_member (if truthy (get_prop "as" options)
                then VObj [("singular", get_prop "as" options)]
                else Model.name_value (Model.name (Model.options T)))
               "singular" = alias_of options T).
  { unfold alias_of. destruct (truthy (get_prop "as" options)); reflexivity. }
  rewrite Hsingular. simpl.
  destruct (String.eqb method "get") eqn:Eg;
    [apply String.eqb_eq in Eg; subst; reflexivity|].
  destruct (String.eqb method "set") eqn:Es;
    [apply String.eqb_eq in Es; subst; reflexivity|].
  destruct (String.eqb method "create") eqn:Ec;
    [apply String.eqb_eq in Ec; subst; reflexivity|reflexivity].
Qed.

(** An alias given in lower case: [as: 'author'] yields [getAuthor]. *)
Lemma accessors_from_alias_witness :
  exists a,
    BelongsTo.new "Book" "User" [("as", VStr "author")] Library.registry
    = (Ok a, Library.registry) /\
    get_prop "get" (BelongsTo.accessors a) = VStr "getAuthor".
Proof.
  eexists.
  match goal with
  | |- BelongsTo.new ?s ?t ?o ?r = (Ok ?a, _) /\ _ =>
      assert (Hnew : BelongsTo.new s t o r = (Ok a, r))
        by (vm_compute; reflexivity);
      destruct (accessors_from_alias s t o r r Library.Book Library.User a
                  eq_refl eq_refl Hnew) as (_ & _ & _ & Hacc)
  end.
  split; [exact Hnew|]. exact (Hacc "get").
Defined.

(* ===================================================================== *)
(** ** Further properties of injectAttributes *)
(* ===================================================================== *)

Section InjectionFurther.

Variable addForeignKeyConstraints :
  obj -> Model.t -> Model.t -> obj -> value -> obj.
Variable checkNamingCollision : BelongsTo.t -> Registry -> option error.

(** [injectAttributes] unfolded on the outcome of its loop. *)
Lemma injectAttributes_unfold (a : BelongsTo.t) (r : Registry) :
  BelongsTo.injectAttributes addForeignKeyConstraints
    checkNamingCollision a r =
  match BelongsTo.inject_each addForeignKeyConstraints a
          (BelongsTo.foreignKeys a) 0 [] r with
  | (Throw e, _) => (Throw e, r)
  | (Ok newAttributes, _) =>
      match r !! BelongsTo.source a with
      | None => (Throw (TypeError "Cannot read property of undefined"), r)
      | Some Src =>
          let r' :=
            alter (Model.with_rawAttributes
                     (Utils.mergeDefaults (Model.rawAttributes Src)
                                          newAttributes))
                  (BelongsTo.source a) r in
          (match checkNamingCollision a r' with
           | Some e => Throw e
           | None => Ok a
           end, r')
      end
  end.
Proof.
  unfold BelongsTo.injectAttributes. rewrite bind_run.
  pose proof (leaves_inject_each addForeignKeyConstraints a
                (BelongsTo.foreignKeys a) 0 [] r) as Hl.
  destruct (BelongsTo.inject_each _ _ _ _ _ r) as [[newAttributes|e] r1];
    simpl in Hl; subst r1; [|reflexivity].
  rewrite bind_run. unfold model at 1.
  destruct (r !! BelongsTo.source a) as [Src|]; [|reflexivity].
  rewrite bind_run. unfold put_rawAttributes at 1.
  rewrite bind_run. unfold BelongsTo.refreshAttributes at 1.
  unfold mret at 1, M_ret at 1.
  rewrite bind_run. unfold BelongsTo.check_collision at 1.
  cbv zeta.
  match goal with
  | |- context [checkNamingCollision a ?x] =>
      destruct (checkNamingCollision a x)
  end; reflexivity.
Qed.

(** X6.  [injectAttributes] returns the association it was called on, and
    the only model it can change is the source: every other model of the
    registry is as it was, however the call ends. *)
Theorem injection_touches_only_source (a : BelongsTo.t) (r : Registry) :
  (forall a', fst (BelongsTo.injectAttributes addForeignKeyConstraints
      checkNamingCollision a r) = Ok a' -> a' = a) /\
  (forall ref, ref <> BelongsTo.source a ->
               snd (BelongsTo.injectAttributes addForeignKeyConstraints
      checkNamingCollision a r) !! ref = r !! ref).
Proof.
  rewrite injectAttributes_unfold.
  destruct (BelongsTo.inject_each _ _ _ _ _ r) as [[newAttributes|e] r1].
  - destruct (r !! BelongsTo.source a) as [Src|]; cbv zeta; simpl.
    + split.
      * intros a'. destruct (checkNamingCollision a _); [discriminate|].
        now intros [= <-].
      * intros ref Href. now rewrite lookup_alter_ne.
    + split; [discriminate|reflexivity].
  - simpl. split; [discriminate|reflexivity].
Qed.

Lemma inject_each_missing_target_key (a : BelongsTo.t) (l : list value)
    (index i : nat) (newAttributes : obj) (r : Registry) :
  (i < length l)%nat ->
  truthy (nth (index + i) (BelongsTo.targetKeys a) VUndefined) = false ->
  exists e,
    BelongsTo.inject_each addForeignKeyConstraints a l index newAttributes r
    = (Throw e, r).
Proof.
  revert index i newAttributes.
  induction l as [|x l IH]; intros index i newAttributes Hi Hfalsy;
    simpl in *; [lia|].
  rewrite bind_run. destruct i as [|i].
  - rewrite Nat.add_0_r in Hfalsy.
    rewrite (inject_one_missing_target_key addForeignKeyConstraints
               a newAttributes x index r Hfalsy).
    eauto.
  - pose proof (leaves_inject_one addForeignKeyConstraints a newAttributes
                  x index r) as Hl.
    destruct (BelongsTo.inject_one _ _ _ _ _ r) as [[acc|e] r1];
      simpl in Hl; subst r1; [|eauto].
    apply (IH (S index) i acc); [lia|].
    now replace (S index + i)%nat with (index + S i)%nat by lia.
Qed.

(** X7.  Injection is all or nothing.  When the target-key name paired with
    any of the foreign keys is falsy, [injectAttributes] throws and the
    registry is as it was: the candidates built for the foreign keys before
    it are not merged. *)
Theorem injection_fails_without_merging (a : BelongsTo.t) (r : Registry)
    (i : nat) :
  (i < length (BelongsTo.foreignKeys a))%nat ->
  truthy (nth i (BelongsTo.targetKeys a) VUndefined) = false ->
  exists e,
    BelongsTo.injectAttributes addForeignKeyConstraints
      checkNamingCollision a r
    = (Throw e, r).
Proof.
  intros Hi Hfalsy. rewrite injectAttributes_unfold.
  destruct (inject_each_missing_target_key a (BelongsTo.foreignKeys a)
              0 i [] r Hi Hfalsy) as [e ->].
  eauto.
Qed.

End InjectionFurther.

(** An association whose second target key has no name: the candidate for
    [tenantId] is built, then the second pair throws, and [Book] is
    unchanged. *)
Lemma injection_fails_without_merging_witness :
  exists e,
    BelongsTo.injectAttributes Library.no_constraints Library.no_collision
      {| BelongsTo.source := "Book";
         BelongsTo.target := "User";
         BelongsTo.options := [];
         BelongsTo.as_ := VStr "Owner";
         BelongsTo.associationType := "BelongsTo";
         BelongsTo.isSingleAssociation := true;
         BelongsTo.isAliased := true;
         BelongsTo.foreignKeys := [VObj [("name", VStr "tenantId")];
                                   VObj [("name", VStr "userId")]];
         BelongsTo.targetKeys := [VStr "id"; VStr EmptyString];
         BelongsTo.identifiers := [];
         BelongsTo.identifierFields := [];
         BelongsTo.targetKeyFields := [VStr "id"; VStr EmptyString];
         BelongsTo.singlePrimaryTargetKey := VNull;
         BelongsTo.associationAccessor := VStr "Owner";
         BelongsTo.accessors := [];
         BelongsTo.foreignKey := VUndefined;
         BelongsTo.targetKey := VUndefined |}
      Library.registry
    = (Throw e, Library.registry).
Proof.
  refine (injection_fails_without_merging Library.no_constraints
            Library.no_collision _ Library.registry 1 _ _).
  - simpl. lia.
  - reflexivity.
Defined.

(* ===================================================================== *)
(** ** Declaring an association: construction, then injection *)
(* ===================================================================== *)



(** A constructor that got past lines 87-89 has resolved every target
    key. *)
Lemma targetKeyFields_inv T (l : list value) (r r' : Registry) fields :
  mapM (BelongsTo.targetKeyField T) l r = (Ok fields, r') ->
  Forall (resolves T) l.
Proof.
  revert r r' fields. induction l as [|x l IH]; intros r r' fields; simpl.
  - constructor.
  - rewrite bind_run.
    destruct (BelongsTo.targetKeyField T x r) as [[f|e] r1] eqn:Ex;
      [|discriminate].
    rewrite bind_run.
    destruct (mapM _ l r1) as [[fs|e] r2] eqn:El; [|discriminate].
    intros _. constructor; [|exact (IH _ _ _ El)].
    unfold BelongsTo.targetKeyField in Ex. rewrite bind_run in Ex.
    unfold lift, member, resolves in *.
    destruct (read_prop (to_string x) (Model.rawAttributes T));
      try reflexivity; discriminate.
Qed.

Section Declaration.

Variable addForeignKeyConstraints :
  obj -> Model.t -> Model.t -> obj -> value -> obj.
Variable checkNamingCollision : BelongsTo.t -> Registry -> option error.



End Declaration.


(* ===================================================================== *)
(** ** Further properties of get *)
(* ===================================================================== *)

Lemma get_prop_and_where (k : string) (where_ options : obj) :
  get_prop k (BelongsTo.and_where where_ options)
  = if String.eqb k "where"
    then (if truthy (get_prop "where" options)
          then VObj [(Op.and, VArr [VObj where_; get_prop "where" options])]
          else VObj where_)
    else get_prop k options.
Proof.
  unfold BelongsTo.and_where. destruct (String.eqb k "where") eqn:E.
  - apply String.eqb_eq in E. subst k. apply get_prop_set_prop_eq.
  - apply String.eqb_neq in E. now apply get_prop_set_prop_ne.
Qed.




(** X10.  [get] on a single instance, when the lookup by primary key does
    not apply (no truthy [singlePrimaryTargetKey], or a [where] among the
    options), issues exactly one call: a [findOne] on the resolved target.
    Its options are the caller's with [limit] set to [null] and [where] set
    to the filter, or to the conjunction of the filter and the caller's
    [where] when there is one.  The outcome of [get] is the outcome of that
    call, a rejection included. *)
Theorem get_single_general_path
    (a : BelongsTo.t) (instance : Instance.t) (options : obj) (w : World) :
  Forall (fun foreignKey => is_nullish foreignKey = false)
         (BelongsTo.foreignKeys a) ->
  truthy (BelongsTo.singlePrimaryTargetKey a)
  && negb (truthy (get_prop "where" options)) = false ->
  exists where_,
    BelongsTo.where_each a (Instance.get instance)
      (BelongsTo.foreignKeys a) 0 [] = Ok where_ /\
    let query :=
      BelongsTo.and_where where_ (set_prop "limit" VNull options) in
    run w (BelongsTo.get a (inl instance) options)
    = (w (FindOne (BelongsTo.resolve_target a options) query),
       [FindOne (BelongsTo.resolve_target a options) query]) /\
    get_prop "limit" query = VNull /\
    get_prop "where" query
    = (if truthy (get_prop "where" options)
       then VObj [(Op.and, VArr [VObj where_; get_prop "where" options])]
       else VObj where_) /\
    forall k, k <> "where" -> k <> "limit" ->
              get_prop k query = get_prop k options.
Proof.
  intros Hfks Hslow.
  destruct (where_each_ok a (Instance.get instance) (BelongsTo.foreignKeys a)
              0 [] Hfks) as [where_ Hwhere].
  exists where_. split; [exact Hwhere|]. cbv zeta.
  split; [|split; [|split]].
  - unfold BelongsTo.get, Utils.cloneDeep. rewrite Hslow.
    change (fun name => Instance.get instance name)
      with (Instance.get instance).
    rewrite Hwhere. apply run_call_return.
  - rewrite get_prop_and_where. cbn [String.eqb Ascii.eqb Bool.eqb].
    apply get_prop_set_prop_eq.
  - rewrite get_prop_and_where. rewrite String.eqb_refl.
    now rewrite (get_prop_set_prop_ne "where" "limit") by discriminate.
  - intros k Hw Hl. rewrite get_prop_and_where.
    apply String.eqb_neq in Hw. rewrite Hw.
    now apply get_prop_set_prop_ne.
Qed.

(** [getAuthor({ where: { active: true } })] on book 10: one [findOne]
    whose filter is the conjunction of [{id: 1}] and the caller's filter. *)
Lemma get_single_general_path_witness :
  run Library.world
      (BelongsTo.get Library.author (inl (Library.book 10 1))
         [("where", VObj [("active", VBool true)])])
  = (Ok (Library.user 1),
     [FindOne (Target.model "User")
        [("where",
          VObj [(Op.and, VArr [VObj [("id", VNum 1)];
                               VObj [("active", VBool true)]])]);
         ("limit", VNull)]]).
Proof.
  destruct (get_single_general_path Library.author (Library.book 10 1)
              [("where", VObj [("active", VBool true)])] Library.world
              (Forall_cons_2 _ (VObj [("name", VStr "AuthorId")]) []
                 eq_refl (Forall_nil_2 _))
              eq_refl)
    as (where_ & Hwhere & Hrun & _).
  injection Hwhere as <-. exact Hrun.
Defined.

(** X11.  [get] on an array of instances issues exactly one call, whatever
    the number of instances: a [findAll] on the resolved target, with the
    caller's options and [where] set to the membership filter, or to the
    conjunction of that filter and the caller's [where] when there is one.
    If the call is rejected, so is [get], with the same reason. *)
Theorem get_batch_query
    (a : BelongsTo.t) (instances : list Instance.t) (options : obj)
    (w : World) :
  Forall (fun foreignKey => is_nullish foreignKey = false)
         (BelongsTo.foreignKeys a) ->
  exists where_,
    BelongsTo.where_each a
      (fun name =>
         VObj [(Op.in_,
                VArr (map (fun instance => Instance.get instance name)
                          instances))])
      (BelongsTo.foreignKeys a) 0 [] = Ok where_ /\
    let query := BelongsTo.and_where where_ options in
    snd (run w (BelongsTo.get a (inr instances) options))
    = [FindAll (BelongsTo.resolve_target a options) query] /\
    (forall e, w (FindAll (BelongsTo.resolve_target a options) query)
               = Throw e ->
               fst (run w (BelongsTo.get a (inr instances) options))
               = Throw e) /\
    get_prop "where" query
    = (if truthy (get_prop "where" options)
       then VObj [(Op.and, VArr [VObj where_; get_prop "where" options])]
       else VObj where_) /\
    forall k, k <> "where" -> get_prop k query = get_prop k options.
Proof.
  intros Hfks.
  destruct (where_each_ok a
              (fun name =>
                 VObj [(Op.in_,
                        VArr (map (fun instance => Instance.get instance name)
                                  instances))])
              (BelongsTo.foreignKeys a) 0 [] Hfks) as [where_ Hwhere].
  exists where_. split; [exact Hwhere|]. cbv zeta.
  assert (Hget : BelongsTo.get a (inr instances) options
                 = Call (FindAll (BelongsTo.resolve_target a options)
                           (BelongsTo.and_where where_ options))
                        (fun results =>
                           match BelongsTo.batch_result a instances results
                           with
                           | Ok result => Return (VObj result)
                           | Throw e => Fail e
                           end)).
  { unfold BelongsTo.get, Utils.cloneDeep. now rewrite Hwhere. }
  rewrite Hget. split; [|split; [|split]].
  - simpl. destruct (w _) as [results|e]; [|reflexivity].
    destruct (BelongsTo.batch_result a instances results); reflexivity.
  - intros e He. simpl. now rewrite He.
  - rewrite get_prop_and_where. now rewrite String.eqb_refl.
  - intros k Hk. rewrite get_prop_and_where.
    apply String.eqb_neq in Hk. now rewrite Hk.
Qed.

(** An empty array of instances still costs one query, with an empty
    membership list. *)
Lemma get_batch_query_witness :
  snd (run Library.world (BelongsTo.get Library.author (inr []) []))
  = [FindAll (Target.model "User")
       [("where", VObj [("id", VObj [(Op.in_, VArr [])])])]].
Proof.
  destruct (get_batch_query Library.author [] [] Library.world
              (Forall_cons_2 _ (VObj [("name", VStr "AuthorId")]) []
                 eq_refl (Forall_nil_2 _)))
    as (where_ & Hwhere & Hrun & _).
  injection Hwhere as <-. exact Hrun.
Defined.

(* ===================================================================== *)
(** ** Further properties of the constructor *)
(* ===================================================================== *)

(** X12.  After construction, the attribute registry of the target has a
    member for every target key, its own or one that a plain object
    inherits, and the storage field recorded for the key is the [field] of
    that member, or the key itself when the member has no (truthy)
    [field]. *)
Theorem target_key_fields
    (source target : string) (options : obj) (r r' : Registry)
    (S T : Model.t) (a : BelongsTo.t) :
  r !! source = Some S ->
  r !! target = Some T ->
  BelongsTo.new source target options r = (Ok a, r') ->
  BelongsTo.targetKeyFields a
  = map (fun targetKey =>
           js_or (get_member (read_prop (to_string targetKey)
                                        (Model.rawAttributes T)) "field")
                 targetKey)
        (BelongsTo.targetKeys a) /\
  Forall (fun targetKey =>
            is_nullish (read_prop (to_string targetKey)
                                  (Model.rawAttributes T)) = false)
         (BelongsTo.targetKeys a).
Proof.
  intros HS HT Hnew.
  destruct (new_inv_fields _ _ _ _ _ _ _ _ HS HT Hnew)
    as (_ & tkf & Hfields & ->).
  pose proof (targetKeyFields_inv _ _ _ _ _ Hfields) as Hattrs.
  rewrite (targetKeyFields_ok _ _ r Hattrs) in Hfields.
  injection Hfields as <- _. split; [reflexivity|exact Hattrs].
Qed.

(** A target key that only the prototype chain answers:
    [targetKey: 'constructor'] is no attribute of [User], yet the read of
    line 88 finds a member, so the constructor returns and the storage
    field is the key itself. *)
Example inherited_target_key_constructs :
  has_prop "constructor" (Model.rawAttributes Library.User) = false /\
  exists a,
    BelongsTo.new "Book" "User" [("targetKey", VStr "constructor")]
      Library.registry = (Ok a, Library.registry) /\
    BelongsTo.targetKeys a = [VStr "constructor"] /\
    BelongsTo.targetKeyFields a = [VStr "constructor"] /\
    BelongsTo.singlePrimaryTargetKey a = VNull.
Proof.
  split; [reflexivity|]. eexists. split; [vm_compute; reflexivity|].
  split; [reflexivity|]. split; reflexivity.
Qed.

(** A target whose key attribute is stored in another column:
    [targetKey: 'email'] on a user whose [email] has the field
    [email_address]. *)
Lemma target_key_fields_witness :
  exists a,
    BelongsTo.new "Book" "Member" [("targetKey", VStr "email")]
      (<["Member" := Library.model_named "Member" "Members" false
                       [("id", Library.id_attribute);
                        ("email", VObj [("field", VStr "email_address")])]]>
         Library.registry)
    = (Ok a,
       <["Member" := Library.model_named "Member" "Members" false
                       [("id", Library.id_attribute);
                        ("email", VObj [("field", VStr "email_address")])]]>
         Library.registry) /\
    BelongsTo.targetKeys a = [VStr "email"] /\
    BelongsTo.targetKeyFields a = [VStr "email_address"].
Proof.
  eexists.
  match goal with
  | |- BelongsTo.new ?s ?t ?o ?r = (Ok ?a, _) /\ _ =>
      assert (Hnew : BelongsTo.new s t o r = (Ok a, r))
        by (vm_compute; reflexivity);
      pose proof (proj1 (target_key_fields s t o r r Library.Book
                           (Library.model_named "Member" "Members" false
                              [("id", Library.id_attribute);
                               ("email",
                                VObj [("field", VStr "email_address")])])
                           a eq_refl eq_refl Hnew)) as Hfields
  end.
  split; [exact Hnew|]. split; [reflexivity|exact Hfields].
Defined.

(** Injecting the attributes of [Book.belongsTo(User, { as: 'Author' })]
    returns the association and leaves [User] as it was. *)
Lemma injection_touches_only_source_witness :
  fst (BelongsTo.injectAttributes Library.no_constraints Library.no_collision
         Library.author Library.registry) = Ok Library.author /\
  snd (BelongsTo.injectAttributes Library.no_constraints Library.no_collision
         Library.author Library.registry) !! "User" = Some Library.User.
Proof.
  destruct (injection_touches_only_source Library.no_constraints
              Library.no_collision Library.author Library.registry)
    as [Hsame Hother].
  split.
  - reflexivity.
  - exact (Hother "User" ltac:(discriminate)).
Defined.

(** X14.  Constructing an association never writes to the registry,
    whether the constructor returns or throws: the attributes of the source
    change only when [injectAttributes] is called. *)
Theorem construction_only_reads
    (source target : string) (options : obj) (r : Registry) :
  snd (BelongsTo.new source target options r) = r /\
  forall ref, snd (BelongsTo.new source target options r) !! ref = r !! ref.
Proof.
  pose proof (new_leaves_registry source target options r) as H.
  split; [exact H|]. intros ref. now rewrite H.
Qed.
